(** * Platmy: verification of [platmy/utils.py]

    A shallow embedding of the record-assembly pipeline of Platmy
    ([dict_to_list], [read_abunds]), of the chemistry bridge
    ([get_PT_abundances_MMW]) and of the two configuration helpers
    ([temperature_model], [set_abundance_file]), with the properties of the
    specification stated and settled against them.

    Conventions of the embedding:
    - a Python [str] is a [string]; its characters are the code points 0..255;
    - a Python [dict] is an association list in insertion order with pairwise
      distinct keys ([Py.dict]); assignment to an existing key keeps its
      position, assignment to a new key appends;
    - a raised exception is the [Raise] case of [Py.result];
    - floating point values are kept abstract (a type [num]); nothing proved
      here depends on their arithmetic. *)

From Stdlib Require Import ZArith String Ascii List Lia.
From stdpp Require Import base list strings gmap.


(** ** Python prelude *)

Module Py.

(** The built-in exceptions that the embedded code can raise. *)
Inductive exn : Set :=
| StopIteration
| IndexError
| ValueError
| TypeError
| KeyError
| OSError.

(** Outcome of a call: a value or a raised exception. *)
Inductive result (A : Type) : Type :=
| Ok (a : A)
| Raise (e : exn).
Arguments Ok {A} a.
Arguments Raise {A} e.

Definition bind {A B} (r : result A) (k : A -> result B) : result B :=
  match r with
  | Ok a => k a
  | Raise e => Raise e
  end.

Definition is_ok {A} (r : result A) : bool :=
  match r with Ok _ => true | Raise _ => false end.

(** *** Dictionaries *)

(** A dictionary: its items in insertion order, keys pairwise distinct. *)
Abbreviation dict K V := (list (K * V)).

Section Dict.
Context {K : Type} `{EqDecision K} {V : Type}.

(** [d.get(k)] *)
Fixpoint dict_get (k : K) (d : dict K V) : option V :=
  match d with
  | [] => None
  | (k', v) :: d' => if decide (k' = k) then Some v else dict_get k d'
  end.

(** [d[k] = v] *)
Fixpoint dict_set (k : K) (v : V) (d : dict K V) : dict K V :=
  match d with
  | [] => [(k, v)]
  | (k', v') :: d' =>
      if decide (k' = k) then (k', v) :: d' else (k', v') :: dict_set k v d'
  end.

(** [list(d.keys())] *)
Definition keys (d : dict K V) : list K := d.*1.

(** [d.update(e)], for [e] given as its list of items *)
Definition dict_update (e : list (K * V)) (d : dict K V) : dict K V :=
  foldl (fun acc kv => dict_set kv.1 kv.2 acc) d e.
End Dict.

(** *** Strings *)

Definition chars (s : string) : list ascii := String.list_ascii_of_string s.
Definition str (l : list ascii) : string := String.string_of_list_ascii l.

(** [s[a:b]] for indices [0 <= a <= b]; out-of-range indices are clamped. *)
Definition slice (a b : nat) (s : string) : string :=
  str (take (b - a) (drop a (chars s))).

(** [s[a:]] *)
Definition slice_from (a : nat) (s : string) : string := str (drop a (chars s)).

(** [s[:-1]] *)
Definition drop_last (s : string) : string :=
  str (take (length (chars s) - 1) (chars s)).

(** [s.replace(c, '')] for a one-character [c] *)
Definition remove_char (c : ascii) (s : string) : string :=
  str (filter (fun x => x <> c) (chars s)).

Definition code (c : ascii) : nat := nat_of_ascii c.

(** [c.isspace()] on the code points 0..255: TAB, LF, VT, FF, CR, the four
    separators FS..US, SPACE, NEL and NBSP. *)
Definition isspace (c : ascii) : bool :=
  ((9 <=? code c) && (code c <=? 13)) || ((28 <=? code c) && (code c <=? 32))
  || (code c =? 133) || (code c =? 160).

Definition isdigit (c : ascii) : bool := (48 <=? code c) && (code c <=? 57).

Fixpoint drop_while {A} (f : A -> bool) (l : list A) : list A :=
  match l with
  | [] => []
  | x :: l' => if f x then drop_while f l' else l
  end.

Definition strip_with (f : ascii -> bool) (l : list ascii) : list ascii :=
  rev (drop_while f (rev (drop_while f l))).

(** [s.strip()] *)
Definition strip (s : string) : string := str (strip_with isspace (chars s)).

Definition LF : ascii := ascii_of_nat 10.
Definition SPACE : ascii := " "%char.

(** [f.readlines()] on the text of a file opened in text mode, i.e. after
    newline translation: every line keeps its terminating LF; a last line
    without terminator is returned as it is. *)
Fixpoint readlines_from (cur : list ascii) (l : list ascii) : list string :=
  match l with
  | [] => match cur with [] => [] | _ => [str (rev cur)] end
  | c :: l' =>
      if decide (c = LF) then str (rev (c :: cur)) :: readlines_from [] l'
      else readlines_from (c :: cur) l'
  end.

Definition readlines (text : string) : list string := readlines_from [] (chars text).

(** [s.split()]: the maximal runs of non-whitespace characters. *)
Fixpoint split_from (cur : list ascii) (l : list ascii) : list string :=
  match l with
  | [] => match cur with [] => [] | _ => [str (rev cur)] end
  | c :: l' =>
      if isspace c
      then match cur with
           | [] => split_from [] l'
           | _ => str (rev cur) :: split_from [] l'
           end
      else split_from (c :: cur) l'
  end.

Definition split (s : string) : list string := split_from [] (chars s).

(** [s.split(c)[0]]: the text before the first occurrence of [c]. *)
Fixpoint take_until (c : ascii) (l : list ascii) : list ascii :=
  match l with
  | [] => []
  | x :: l' => if decide (x = c) then [] else x :: take_until c l'
  end.

(** The whitespace that [int()] skips around a literal: the C-locale
    whitespace TAB..CR and SPACE, and the non-ASCII whitespace, which the
    interpreter first maps to SPACE. The separators FS..US are not skipped. *)
Definition int_space (c : ascii) : bool :=
  ((9 <=? code c) && (code c <=? 13)) || (code c =? 32)
  || (code c =? 133) || (code c =? 160).

(** Digits of a decimal literal; single underscores may separate digits. *)
Fixpoint digits_value (acc : Z) (after_digit : bool) (l : list ascii) : option Z :=
  match l with
  | [] => if after_digit then Some acc else None
  | c :: l' =>
      if isdigit c
      then digits_value (10 * acc + Z.of_nat (code c - 48)) true l'
      else if decide (c = "_"%char)
           then (if after_digit then digits_value acc false l' else None)
           else None
  end.

(** [int(s)] for a [str] argument, base 10. *)
Definition int_of_str (s : string) : result Z :=
  let literal :=
    match strip_with int_space (chars s) with
    | c :: ds =>
        if decide (c = "-"%char) then Z.opp <$> digits_value 0 false ds
        else if decide (c = "+"%char) then digits_value 0 false ds
        else digits_value 0 false (c :: ds)
    | [] => None
    end in
  match literal with
  | Some n => Ok n
  | None => Raise ValueError
  end.

(** [os.path.join(a, b)] (POSIX) *)
Definition path_join (a b : string) : string :=
  match chars b with
  | c :: _ => if decide (c = "/"%char) then b
              else match last (chars a) with
                   | None => b
                   | Some e => if decide (e = "/"%char) then a +:+ b
                               else a +:+ "/" +:+ b
                   end
  | [] => match last (chars a) with
          | None => b
          | Some e => if decide (e = "/"%char) then a else a +:+ "/"
          end
  end.

(** A path that starts at the root, as [os.getcwd()] returns them. *)
Definition is_absolute (path : string) : Prop :=
  exists rest, chars path = "/"%char :: rest.

(** [s.ljust(n)] *)
Definition ljust (n : nat) (s : string) : string :=
  s +:+ str (replicate (n - length (chars s)) SPACE).

(** *** The process: working directory and the calls made to the system *)

(** A Python value as far as the [raise] statement tells them apart. *)
Inductive pyobj : Type :=
| ExceptionClass (e : exn)
| StrObject (s : string)
| TupleObject (first second : pyobj).

(** [raise o]: an exception class is instantiated and raised; an object
    that is no exception makes the statement itself fail with
    [TypeError] (exceptions must derive from BaseException). *)
Definition raise_stmt (o : pyobj) : exn :=
  match o with
  | ExceptionClass e => e
  | StrObject _ | TupleObject _ _ => TypeError
  end.

Section Process.
Context {num : Type}.

Inductive event : Type :=
| Chdir (path : string)
| Savetxt (fname : string) (data : list (num * num))
| System (command : string).

(** The state of the process: its working directory and the calls it has
    made so far, oldest first. *)
Record world : Type := World { cwd : string; log : list event }.

(** What lies outside the program: whether a directory can be entered,
    whether a file can be written, and the text that reading a file
    gives, all depending on what has happened so far. *)
Record environment : Type := Environment {
  chdir_error : world -> string -> option exn;
  savetxt_error : world -> string -> option exn;
  file_text : world -> string -> result string
}.

(** A computation with effects on the process; an exception leaves the
    world as it was when it was raised. *)
Definition io (A : Type) : Type := world -> result A * world.

Definition io_ret {A} (a : A) : io A := fun w => (Ok a, w).
Definition io_raise {A} (e : exn) : io A := fun w => (Raise e, w).
Definition io_lift {A} (r : result A) : io A := fun w => (r, w).
Definition io_bind {A B} (m : io A) (k : A -> io B) : io B :=
  fun w => match m w with
           | (Ok a, w') => k a w'
           | (Raise e, w') => (Raise e, w')
           end.

Variable env : environment.

(** [os.getcwd()] *)
Definition getcwd : io string := fun w => (Ok (cwd w), w).

(** [os.chdir(path)]; a relative [path] is taken from the working
    directory. *)
Definition chdir (path : string) : io unit := fun w =>
  match chdir_error env w path with
  | Some e => (Raise e, w)
  | None => (Ok tt, World (path_join (cwd w) path) (log w ++ [Chdir path]))
  end.

(** [os.system(command)]: the exit status is returned, never raised; the
    callers discard it. *)
Definition system (command : string) : io unit := fun w =>
  (Ok tt, World (cwd w) (log w ++ [System command])).

(** [np.savetxt(fname, data)] *)
Definition savetxt (fname : string) (data : list (num * num)) : io unit := fun w =>
  match savetxt_error env w fname with
  | Some e => (Raise e, w)
  | None => (Ok tt, World (cwd w) (log w ++ [Savetxt fname data]))
  end.

(** The text of the file [fname], as [open] and [genfromtxt] read it. *)
Definition read_text (fname : string) : io string := fun w =>
  (file_text env w fname, w).
End Process.
Arguments event num : clear implicits.
Arguments world num : clear implicits.
Arguments environment num : clear implicits.
Arguments io num A : clear implicits.

(** *** Directory entries *)

(** What a name in the working directory stands for. *)
Inductive node : Set :=
| Directory
| RegularFile.

(** [d[k]]: a missing key raises [KeyError]. *)
Definition dict_index {V : Type} (k : string) (d : dict string V) : result V :=
  match dict_get k d with
  | Some v => Ok v
  | None => Raise KeyError
  end.

Section Tree.
(** The entries of the working directory, by name. A refusal of [mkdir]
    for another reason than an existing name (permissions, a read-only
    medium) comes from outside. *)
Variable mkdir_refused : gmap string node -> string -> option exn.

(** [os.path.isdir(path)] for a name in the working directory *)
Definition isdir (t : gmap string node) (path : string) : bool :=
  match t !! path with
  | Some Directory => true
  | Some RegularFile | None => false
  end.

(** [os.mkdir(path)]: an existing name of any kind raises
    [FileExistsError], an [OSError]. *)
Definition mkdir (path : string) (t : gmap string node)
    : result unit * gmap string node :=
  match t !! path with
  | Some _ => (Raise OSError, t)
  | None =>
      match mkdir_refused t path with
      | Some e => (Raise e, t)
      | None => (Ok tt, <[path := Directory]> t)
      end
  end.
End Tree.

End Py.

Export Py.

Declare Scope py_scope.
Notation "x <- r ;; k" := (Py.bind r (fun x => k))
  (at level 100, r at next level, right associativity) : py_scope.
Notation "x <~ m ;; k" := (Py.io_bind m (fun x => k))
  (at level 100, m at next level, right associativity) : py_scope.
Notation "m ;;; k" := (Py.io_bind m (fun _ => k))
  (at level 100, right associativity) : py_scope.
Local Open Scope py_scope.


(** ** numpy: the part of [genfromtxt] and of array indexing that
    [utils.py] relies on, after the library's documented behaviour *)

Module Np.

Section Numpy.
Context {num : Type}.

(** An array of floats of dimension 0, 1 or 2; [Array2 ncols rows] has
    [ncols] entries in every row. *)
Inductive ndarray : Type :=
| Array0 (x : num)
| Array1 (xs : list num)
| Array2 (ncols : nat) (rows : list (list num)).

(** Axes of length one are removed from the result ([ndmin=0]); an empty
    table is the empty one-dimensional array. *)
Definition squeeze (nbcols : nat) (rows : list (list num)) : ndarray :=
  match rows with
  | [] => Array1 []
  | [row] => match row with [x] => Array0 x | _ => Array1 row end
  | _ => if nbcols =? 1 then Array1 (concat rows) else Array2 nbcols rows
  end.

(** The fields of a line: the text before the comment character [#],
    split at whitespace. *)
Definition split_line (line : string) : list string :=
  split (str (take_until "#"%char (chars line))).

Variable float_of_token : string -> num.

(** [np.genfromtxt(path)] with the default arguments, on the lines of the
    file: lines without fields are skipped, the first remaining line
    fixes the number of columns, a line with another number of fields
    raises [ValueError]; fields that are not float literals convert to
    nan ([float_of_token] is the converter). *)
Definition genfromtxt (lines : list string) : result ndarray :=
  let rows := filter (fun r => r <> []) (split_line <$> lines) in
  match rows with
  | [] => Ok (Array1 [])
  | first_values :: _ =>
      let nbcols := length first_values in
      if forallb (fun r => length r =? nbcols) rows
      then Ok (squeeze nbcols (fmap float_of_token <$> rows))
      else Raise ValueError
  end.

(** [dat[:, j]]: two indices need a two-dimensional array; [j] counts from
    the end when negative. *)
Definition column (dat : ndarray) (j : Z) : result (list num) :=
  match dat with
  | Array2 ncols rows =>
      if ((- Z.of_nat ncols <=? j) && (j <? Z.of_nat ncols))%Z
      then match mapM (fun row => row !! Z.to_nat (j mod Z.of_nat ncols)) rows with
           | Some col => Ok col
           | None => Raise IndexError
           end
      else Raise IndexError
  | _ => Raise IndexError
  end.
(** [np.column_stack((a, b))] for two one-dimensional arrays. *)
Definition column_stack (a b : list num) : result (list (num * num)) :=
  if length a =? length b then Ok (zip a b) else Raise ValueError.
End Numpy.
Arguments ndarray num : clear implicits.

End Np.

Export Np.

(** ** platmy/utils.py *)

Module Utils.

Section DictToList.
Context {K : Type} `{EqDecision K} {V : Type}.

(** Inner loop of [dict_to_list]:
    [for i, el in enumerate(v): list_of_dictionaries[i][k] = el],
    entered at position [i]. Indexing the list past its end raises. *)
Fixpoint fill_column (k : K) (i : nat) (v : list V)
    (list_of_dictionaries : list (dict K V)) : result (list (dict K V)) :=
  match v with
  | [] => Ok list_of_dictionaries
  | el :: v' =>
      match list_of_dictionaries !! i with
      | Some r =>
          fill_column k (S i) v' (<[i := dict_set k el r]> list_of_dictionaries)
      | None => Raise IndexError
      end
  end.

(** Outer loop: [for k, v in input_dict.items()]. *)
Fixpoint fill_items (items : list (K * list V))
    (list_of_dictionaries : list (dict K V)) : result (list (dict K V)) :=
  match items with
  | [] => Ok list_of_dictionaries
  | (k, v) :: rest =>
      lod <- fill_column k 0 v list_of_dictionaries ;;
      fill_items rest lod
  end.

(** [dict_to_list(input_dict)]: one fresh empty dictionary per element of
    the first column ([next] on an exhausted iterator raises
    [StopIteration]), then the two loops. *)
Definition dict_to_list (input_dict : dict K (list V))
    : result (list (dict K V)) :=
  match input_dict with
  | [] => Raise StopIteration
  | (_, v0) :: _ => fill_items input_dict (replicate (length v0) [])
  end.

(** The entry that column [v], entered at row [i], adds to row [j]. *)
Definition col_entry (k : K) (i : nat) (v : list V) (j : nat) : dict K V :=
  if decide (i <= j) then option_list (pair k <$> v !! (j - i)) else [].

(** Row [i] of a column table, in closed form: the entries of the columns
    that reach index [i], in the order of the table. *)
Definition row_at (i : nat) (input_dict : dict K (list V)) : dict K V :=
  omap (fun kv => pair kv.1 <$> kv.2 !! i) input_dict.
End DictToList.
Global Arguments row_at : simpl never.

Section ReadAbunds.
Context {num : Type} (float_of_token : string -> num).

(** [int((len(header) - 21) / 22)]: the quotient truncated towards zero. *)
Definition n_slots (header : string) : nat :=
  Z.to_nat (Z.quot (Z.of_nat (length (chars header)) - 21) 22).

(** [header[21 + i * 22:21 + (i + 1) * 22]] *)
Definition slot (header : string) (i : nat) : string :=
  slice (21 + i * 22) (21 + (i + 1) * 22) header.

(** Characters 3 through 21 of slot [i], and what is left of them once
    the spaces are taken out. *)
Definition name_field (header : string) (i : nat) : string :=
  slice 3 22 (slot header i).
Definition squeezed_name (header : string) (i : nat) : string :=
  remove_char SPACE (name_field header i).

(** The name bound at loop index [i], after the rename. *)
Definition species_name (header : string) (i : nat) : string :=
  let name := remove_char SPACE (slice_from 3 (slot header i)) in
  if decide (name = "C2H2,acetylene") then "C2H2" else name.

(** The body of the loop over the header slots, for the indices [idxs]. *)
Fixpoint slots_loop (dat : ndarray num) (header : string) (idxs : list nat)
    (ret : dict string (list num)) : result (dict string (list num)) :=
  match idxs with
  | [] => Ok ret
  | i :: idxs' =>
      let name := species_name header i in
      if Nat.even i
      then number <- int_of_str (slice 0 3 (slot header i)) ;;
           col <- column dat number ;;
           slots_loop dat header idxs' (dict_set name col ret)
      else slots_loop dat header idxs' ret
  end.

(** The header as [read_abunds] takes it from the file. *)
Definition header_of (text : string) : result string :=
  match readlines text with
  | first :: _ => Ok (drop_last first)
  | [] => Raise IndexError
  end.

(** The column table [ret] that [read_abunds] builds from the text of the
    file at [path]. *)
Definition read_abunds_table (text : string) : result (dict string (list num)) :=
  header <- header_of text ;;
  dat <- genfromtxt float_of_token (readlines text) ;;
  p <- column dat 0 ;;
  t <- column dat 1 ;;
  rho <- column dat 2 ;;
  let ret := dict_set "rho" rho (dict_set "T" t (dict_set "P" p [])) in
  slots_loop dat header (seq 0 (n_slots header)) ret.

(** [read_abunds(path)], as a function of the text of the file. *)
Definition read_abunds (text : string) : result (list (dict string num)) :=
  ret <- read_abunds_table text ;;
  dict_to_list ret.

(** The names bound by the loop: those of the even-indexed slots. *)
Definition even_slot_names (header : string) : list string :=
  species_name header <$> filter (fun i => Nat.even i = true) (seq 0 (n_slots header)).
End ReadAbunds.

Section TemperatureModel.
Context {num : Type} (float_of_token : string -> num).

(** Multiplication of floats, and [nc.guillot_global] of petitRADTRANS. *)
Variable mul : num -> num -> num.
Variable guillot_global :
  list num -> num -> num -> num -> num -> num -> result (list num).

(** The values stored in the [params] dictionary. *)
Inductive param : Type :=
| ParamStr (s : string)
| ParamFloat (x : num).

(** [np.ones_like(a)] *)
Definition ones_like (a : list num) : list num :=
  replicate (length a) (float_of_token "1.0").

Definition temperature_model (temp : num) (pressures : list num) (gravity : num)
    (model : string) : result (option (list num) * dict string param) :=
  let temperatures : option (list num) := None in
  let params := dict_set "model" (ParamStr model) [] in
  if decide (model = "constant")
  then
    let temperatures := Some (mul temp <$> ones_like pressures) in
    let params := dict_update [("temp", ParamFloat temp)] params in
    Ok (temperatures, params)
  else if decide (model = "guillot")
  then
    let kappa_IR := float_of_token "0.01" in
    let gamma := float_of_token "0.4" in
    let T_int := float_of_token "200." in
    let T_equ := temp in
    let params :=
      dict_update [("t_int", ParamFloat T_int); ("t_equ", ParamFloat T_equ);
                   ("kappa_ir", ParamFloat kappa_IR); ("gamma", ParamFloat gamma)]
                  params in
    t <- guillot_global pressures kappa_IR gamma gravity T_int T_equ ;;
    Ok (Some t, params)
  else Ok (temperatures, params).
End TemperatureModel.

Section Bridge.
Context {num : Type} (float_of_token : string -> num) (env : environment num).

Definition solver_dir (current_dir : string) : string :=
  path_join current_dir "easy_chem".

Definition get_PT_abundances_MMW (pressure temperature : list num)
    : io num (list (dict string num) * list num) :=
  current_dir <~ getcwd ;;
  chdir env (solver_dir current_dir) ;;;
  data <~ io_lift (column_stack pressure temperature) ;;
  savetxt env "PT_struct.dat" data ;;;
  system "./call_easy_chem" ;;;
  text <~ read_text env "final_abund_all.dat" ;;
  abunds <~ io_lift (read_abunds float_of_token text) ;;
  mmw_text <~ read_text env "MMWs.dat" ;;
  dat <~ io_lift (genfromtxt float_of_token (readlines mmw_text)) ;;
  mmw <~ io_lift (column dat 1) ;;
  system "rm MMWs.dat" ;;;
  system "rm final_abund_all.dat" ;;;
  system "rm PT_struct.dat" ;;;
  chdir env current_dir ;;;
  io_ret (abunds, mmw).

Definition invalid_option_message : string :=
  "Error: not valid option. It can be either `std` or `subsolar`".

Definition set_abundance_file (atype : string) : io num unit :=
  file <~ (if decide (atype = "std") then io_ret "Standard_abundances.inp"
           else if decide (atype = "subsolar") then io_ret "Subsolar_abundances.inp"
           else io_raise (raise_stmt
                  (TupleObject (ExceptionClass KeyError)
                               (StrObject invalid_option_message)))) ;;
  current_dir <~ getcwd ;;
  chdir env (solver_dir current_dir) ;;;
  system ("cp " +:+ file +:+ " abundances.inp") ;;;
  chdir env current_dir.
End Bridge.

(** The module-level lists of output directories and file patterns. *)
Definition dirs : list string := ["gendata"; "plots"].
Definition extensions : list string := ["*.ecsv"; "*.png"].

Section Folders.
Variable mkdir_refused : gmap string node -> string -> option exn.

(** The loop of [check_folders] over the directory names [ds]. *)
Fixpoint check_folders_loop (ds : list string) (t : gmap string node)
    : result unit * gmap string node :=
  match ds with
  | [] => (Ok tt, t)
  | d :: ds' =>
      if isdir t d then check_folders_loop ds' t
      else match mkdir mkdir_refused d t with
           | (Ok _, t') => check_folders_loop ds' t'
           | (Raise e, t') => (Raise e, t')
           end
  end.

Definition check_folders (t : gmap string node) : result unit * gmap string node :=
  check_folders_loop dirs t.
End Folders.

Section CleanOutputs.
Context {num : Type}.

(** The loop of [clean_outputs] over the pairs of [zip(dirs, extensions)]. *)
Fixpoint clean_outputs_loop (pairs : list (string * string)) : io num unit :=
  match pairs with
  | [] => io_ret tt
  | (d, ext) :: rest =>
      system ("rm " +:+ d +:+ "/" +:+ ext) ;;;
      clean_outputs_loop rest
  end.

Definition clean_outputs : io num unit := clean_outputs_loop (zip dirs extensions).
End CleanOutputs.

Section ModelAbundances.
Context {num : Type} (float_of_token : string -> num).
Variable mul : num -> num -> num.

(** The absorber species of [make_model]; [H2] is listed twice. *)
Definition species : list string :=
  ["H2"; "He"; "C2H2"; "CH4"; "CO"; "CO2"; "H2"; "H2O"; "H2S"; "HCN";
   "K"; "NH3"; "Na"; "OH"; "PH3"; "TiO"; "VO"].

(** The loop of [make_model] that fills [abundances], over the species
    [ss]: [abundances[s] = mass_fractions[s] * np.ones_like(temperature)]. *)
Fixpoint abundances_loop (mass_fractions : dict string num) (temperature : list num)
    (ss : list string) (abundances : dict string (list num))
    : result (dict string (list num)) :=
  match ss with
  | [] => Ok abundances
  | s :: ss' =>
      x <- dict_index s mass_fractions ;;
      abundances_loop mass_fractions temperature ss'
        (dict_set s (mul x <$> ones_like float_of_token temperature) abundances)
  end.

(** The [abundances] dictionary that [make_model] hands to the
    radiative-transfer engine, for a temperature profile that is an array. *)
Definition make_model_abundances (mass_fractions : dict string num)
    (temperature : list num) : result (dict string (list num)) :=
  abundances_loop mass_fractions temperature species [].
End ModelAbundances.

End Utils.

Export Utils.

(** ** The wording of the specification, where it is compared with the code *)

Module Spec.

(** The species name of a slot as the specification has it: characters 3
    through 21 of the slot, trimmed of surrounding whitespace. *)
Definition species_name (header : string) (i : nat) : string :=
  strip (slice 3 22 (slot header i)).

End Spec.

(** ** Sample inputs *)

Module Samples.

(** Floats are kept as the text of their field. *)
Definition field_text (token : string) : string := token.

Definition eol : string := String LF EmptyString.

Definition row_1 : string := "1.0 300.0 0.001 0.5 0.3" +:+ eol.
Definition row_2 : string := "2.0 310.0 0.002 0.4 0.2" +:+ eol.
Definition two_rows : string := row_1 +:+ row_2.


(** A header as the solver writes it: a comment line; slots 0 and 2 carry
    an index and a name, slots 1 and 3 carry companion text. *)
Definition abunds_header : string :=
  ljust 21 "# P [bar]  T [K]" +:+ ljust 22 "  3H2" +:+ ljust 22 "   mass H2"
  +:+ ljust 22 "  4C2H2,acetylene" +:+ ljust 22 "   mass C2H2".

Definition abunds_file : string := abunds_header +:+ eol +:+ two_rows.

Definition abunds_records : list (dict string string) :=
  [ [("P", "1.0"); ("T", "300.0"); ("rho", "0.001"); ("H2", "0.5"); ("C2H2", "0.3")];
    [("P", "2.0"); ("T", "310.0"); ("rho", "0.002"); ("H2", "0.4"); ("C2H2", "0.2")] ].

(** The header line alone. *)
Definition header_only_file : string := abunds_header +:+ eol.

(** A header of length 21 + 2 * 22 that is no comment line and has as many
    fields as the rows below it. *)
Definition plain_header : string :=
  ljust 21 "P[bar] T[K] rho" +:+ ljust 22 "  3H2" +:+ ljust 22 "  4He".

Definition plain_header_file : string := plain_header +:+ eol +:+ two_rows.



(** A name with a space inside. *)
Definition spaced_name_header : string :=
  ljust 21 "# P [bar]  T [K]" +:+ ljust 22 "  3H2 O".

Definition spaced_name_file : string := spaced_name_header +:+ eol +:+ two_rows.

(** A process in the project directory, where every directory can be
    entered, every file written, and every file read holds [text]. *)
Definition quiet_env (text : string) : environment string :=
  Environment (fun _ _ => None) (fun _ _ => None) (fun _ _ => Ok text).

Definition project_world : world string := World "/home/user/Platmy" [].

(** Stand-ins for the product of floats and for [guillot_global]. *)
Definition times (a b : string) : string := a +:+ "*" +:+ b.
Definition flat_profile (pressures : list string) (kappa_IR gamma gravity T_int T_equ : string)
    : result (list string) :=
  Ok (replicate (length pressures) T_equ).

Definition ragged_table : dict string (list nat) :=
  [("a", [1; 2; 3]); ("b", [4])].

Definition square_table : dict string (list nat) :=
  [("P", [1; 2]); ("T", [300; 310])].

End Samples.

(** ** More sample inputs *)

Module MoreSamples.
Import Samples.

Definition first_record : dict string string :=
  [("P", "1.0"); ("T", "300.0"); ("rho", "0.001"); ("H2", "0.5"); ("C2H2", "0.3")].

Definition first_row : list string := ["1.0"; "300.0"; "0.001"; "0.5"; "0.3"].

Definition two_rows_table : list (list string) :=
  [["1.0"; "300.0"; "0.001"; "0.5"; "0.3"]; ["2.0"; "310.0"; "0.002"; "0.4"; "0.2"]].

(** A body line with two fields under rows of five. *)
Definition short_row : string := "3.0 320.0" +:+ eol.
Definition ragged_file : string := abunds_header +:+ eol +:+ row_1 +:+ short_row.

(** A table of two columns. *)
Definition narrow_file : string :=
  abunds_header +:+ eol +:+ "1.0 300.0" +:+ eol +:+ "2.0 310.0" +:+ eol.

(** A header whose first slot has no integer in its index field. *)
Definition unnumbered_header : string :=
  ljust 21 "# P [bar]  T [K]" +:+ ljust 22 "  xH2".
Definition unnumbered_file : string := unnumbered_header +:+ eol +:+ two_rows.

(** A header whose first slot names column 9 of a table of five. *)
Definition far_header : string :=
  ljust 21 "# P [bar]  T [K]" +:+ ljust 22 "  9H2".
Definition far_file : string := far_header +:+ eol +:+ two_rows.

(** A process that cannot go back to the project directory. *)
Definition one_way_env : environment string :=
  Environment
    (fun _ path => if decide (path = "/home/user/Platmy") then Some OSError else None)
    (fun _ _ => None) (fun _ _ => Ok "").

(** Working directories: an empty one, and one where [plots] is a file. *)
Definition never_refused (t : gmap string node) (path : string) : option exn := None.
Definition always_refused (t : gmap string node) (path : string) : option exn :=
  Some OSError.
Definition empty_tree : gmap string node := ∅.
Definition both_folders : gmap string node :=
  <["plots" := Directory]> (<["gendata" := Directory]> ∅).
Definition plots_is_a_file : gmap string node := {["plots" := RegularFile]}.

(** Mass fractions for all the species of [make_model], and one more. *)
Definition all_fractions : dict string string :=
  [("H2", "0.74"); ("He", "0.24"); ("C2H2", "1e-9"); ("CH4", "1e-6"); ("CO", "1e-3");
   ("CO2", "1e-6"); ("H2O", "1e-3"); ("H2S", "1e-6"); ("HCN", "1e-8"); ("K", "1e-7");
   ("NH3", "1e-6"); ("Na", "1e-6"); ("OH", "1e-9"); ("PH3", "1e-8"); ("TiO", "1e-9");
   ("VO", "1e-10"); ("FeH", "1e-9")].

End MoreSamples.

(** * Properties *)

Section DictFacts.
Context {K : Type} `{EqDecision K} {V : Type}.
Implicit Types (d : dict K V) (k : K) (v : V).

Lemma dict_get_None d k : dict_get k d = None <-> k ∉ keys d.
Proof.
  unfold keys. induction d as [|[k' v'] d IH]; simpl.
  - split; [intros _; apply not_elem_of_nil | done].
  - case_decide as Hk; subst.
    + split; [done | intros []; left].
    + rewrite IH, not_elem_of_cons. split; [by intros|by intros [_ ?]].
Qed.

Lemma dict_get_Some_elem d k v : dict_get k d = Some v -> (k, v) ∈ d.
Proof.
  induction d as [|[k' v'] d IH]; simpl; [done|].
  case_decide as Hk.
  - intros Hv. injection Hv as Hv. subst. left.
  - intros Hv. right. auto.
Qed.

Lemma dict_get_elem d k v : NoDup (keys d) -> (k, v) ∈ d -> dict_get k d = Some v.
Proof.
  unfold keys. induction d as [|[k' v'] d IH]; simpl.
  - intros _ H%elem_of_nil. done.
  - intros [Hk Hd]%NoDup_cons [[= -> ->]|Hin]%elem_of_cons.
    + by rewrite decide_True.
    + rewrite decide_False; [auto|].
      intros ->. apply Hk. apply list_elem_of_fmap. by exists (k, v).
Qed.

Lemma dict_set_fresh d k v : k ∉ keys d -> dict_set k v d = d ++ [(k, v)].
Proof.
  unfold keys. induction d as [|[k' v'] d IH]; simpl; [done|].
  intros [Hk Hd]%not_elem_of_cons.
  rewrite decide_False by done. by rewrite IH.
Qed.

Lemma keys_dict_set_present d k v : k ∈ keys d -> keys (dict_set k v d) = keys d.
Proof.
  unfold keys. induction d as [|[k' v'] d IH]; simpl.
  - intros H%elem_of_nil. done.
  - intros Hin. case_decide; subst; simpl; [done|].
    f_equal. apply IH. apply elem_of_cons in Hin as [|]; [congruence|done].
Qed.

Lemma keys_dict_set d k v :
  keys (dict_set k v d) = if decide (k ∈ keys d) then keys d else keys d ++ [k].
Proof.
  case_decide.
  - by apply keys_dict_set_present.
  - rewrite dict_set_fresh by done. unfold keys. by rewrite fmap_app.
Qed.

Lemma dict_get_set d k k' v :
  dict_get k' (dict_set k v d) = if decide (k = k') then Some v else dict_get k' d.
Proof.
  induction d as [|[k0 v0] d IH]; simpl.
  - repeat case_decide; congruence.
  - repeat (case_decide; simpl; subst); try congruence.
Qed.

Lemma NoDup_keys_dict_set d k v : NoDup (keys d) -> NoDup (keys (dict_set k v d)).
Proof.
  intros Hd. rewrite keys_dict_set. case_decide; [done|].
  apply NoDup_app. split_and!; [done| |apply NoDup_singleton].
  intros x Hx ->%list_elem_of_singleton. done.
Qed.
End DictFacts.

(** ** [dict_to_list] *)

Section DictToListFacts.
Context {K : Type} `{EqDecision K} {V : Type}.
Implicit Types (k : K) (v col : list V) (lod : list (dict K V))
  (d items : dict K (list V)).

Lemma fill_column_length k v : forall i lod lod',
  fill_column k i v lod = Ok lod' -> length lod' = length lod.
Proof.
  induction v as [|el v IH]; intros i lod lod'; simpl.
  - by intros [= ->].
  - destruct (lod !! i) as [r|]; [|done].
    intros Hrec%IH. by rewrite length_insert in Hrec.
Qed.

Lemma fill_column_raise k v : forall i lod,
  i <= length lod -> length lod < i + length v ->
  fill_column k i v lod = Raise IndexError.
Proof.
  induction v as [|el v IH]; intros i lod Hi Hlen; simpl in *; [lia|].
  destruct (lod !! i) as [r|] eqn:Hr; [|done].
  apply lookup_lt_Some in Hr.
  apply IH; rewrite length_insert; lia.
Qed.

Lemma fill_column_ok k v : forall i lod,
  i + length v <= length lod ->
  (forall j r, i <= j -> lod !! j = Some r -> k ∉ keys r) ->
  exists lod', fill_column k i v lod = Ok lod' /\
    forall j, lod' !! j = (fun r => r ++ col_entry k i v j) <$> lod !! j.
Proof.
  induction v as [|el v IH]; intros i lod Hlen Hfresh; simpl in *.
  - exists lod. split; [done|]. intros j. unfold col_entry.
    case_decide; simpl; destruct (lod !! j); simpl; by rewrite ?app_nil_r.
  - destruct (lookup_lt_is_Some_2 lod i) as [r Hr]; [lia|]. rewrite Hr.
    rewrite (dict_set_fresh r k el) by (apply (Hfresh i); [lia|done]).
    destruct (IH (S i) (<[i := r ++ [(k, el)]]> lod)) as (lod' & Hfill & Hlod').
    { rewrite length_insert. lia. }
    { intros j r' Hj. rewrite list_lookup_insert_ne by lia. apply Hfresh. lia. }
    exists lod'. split; [done|]. intros j. rewrite Hlod'. unfold col_entry.
    destruct (decide (j = i)) as [->|Hne].
    + rewrite list_lookup_insert_eq by (by apply lookup_lt_Some in Hr).
      rewrite Hr. simpl. rewrite decide_False by lia. rewrite decide_True by lia.
      rewrite Nat.sub_diag. simpl. by rewrite app_nil_r.
    + rewrite list_lookup_insert_ne by done.
      destruct (lod !! j) as [r'|]; simpl; [|done]. f_equal. f_equal.
      repeat case_decide; try lia; try done.
      by replace (j - i) with (S (j - S i)) by lia.
Qed.

Lemma row_at_cons k v d j :
  row_at j ((k, v) :: d) = option_list (pair k <$> v !! j) ++ row_at j d.
Proof. unfold row_at. simpl. by destruct (v !! j). Qed.

Lemma keys_row_at_subseteq d j : keys (row_at j d) ⊆ keys d.
Proof.
  unfold keys. induction d as [|[k v] d IH]; [done|].
  rewrite row_at_cons, fmap_app, fmap_cons. simpl.
  intros x Hx. destruct (v !! j); simpl in *.
  - apply elem_of_cons in Hx as [->|Hx]; [left|right; auto].
  - right. auto.
Qed.

Lemma fill_items_length items : forall lod lod',
  fill_items items lod = Ok lod' -> length lod' = length lod.
Proof.
  induction items as [|[k v] items IH]; intros lod lod'; simpl.
  - by intros [= ->].
  - destruct (fill_column k 0 v lod) as [lod1|] eqn:Hcol; simpl; [|done].
    intros ->%IH. by eapply fill_column_length.
Qed.

Lemma fill_items_ok items : forall lod,
  Forall (fun kv => length kv.2 <= length lod) items ->
  NoDup (keys items) ->
  (forall r k, r ∈ lod -> k ∈ keys items -> k ∉ keys r) ->
  exists lod', fill_items items lod = Ok lod' /\
    forall j, lod' !! j = (fun r => r ++ row_at j items) <$> lod !! j.
Proof.
  unfold keys.
  induction items as [|[k v] items IH]; intros lod Hlen Hnd Hfresh; simpl in *.
  - exists lod. split; [done|]. intros j.
    destruct (lod !! j); simpl; by rewrite ?app_nil_r.
  - apply Forall_cons in Hlen as [Hv Hlen]. apply NoDup_cons in Hnd as [Hk Hnd].
    destruct (fill_column_ok k v 0 lod) as (lod1 & Hcol & Hlod1); [simpl in *; lia| |].
    { intros j r _ Hr. apply Hfresh; [by eapply list_elem_of_lookup_2|left]. }
    rewrite Hcol. simpl.
    destruct (IH lod1) as (lod' & -> & Hlod'); [| done | |].
    { by rewrite (fill_column_length _ _ _ _ _ Hcol). }
    { intros r k' [j Hr]%list_elem_of_lookup_1 Hk'. rewrite Hlod1 in Hr.
      destruct (lod !! j) as [r0|] eqn:Hr0; simplify_eq/=.
      unfold keys, col_entry. rewrite fmap_app. apply not_elem_of_app. split.
      - apply (Hfresh r0 k'); [by eapply list_elem_of_lookup_2|by right].
      - rewrite decide_True by lia.
        destruct (v !! (j - 0)); simpl; [|apply not_elem_of_nil].
        apply not_elem_of_cons. split; [by intros ->|apply not_elem_of_nil]. }
    exists lod'. split; [done|]. intros j. rewrite Hlod', Hlod1.
    destruct (lod !! j); simpl; [|done]. f_equal.
    rewrite row_at_cons, <-app_assoc. unfold col_entry.
    rewrite decide_True by lia. by rewrite Nat.sub_0_r.
Qed.

Lemma fill_column_is_ok k v : forall i lod,
  i + length v <= length lod -> is_ok (fill_column k i v lod) = true.
Proof.
  induction v as [|el v IH]; intros i lod Hlen; simpl in *; [done|].
  destruct (lookup_lt_is_Some_2 lod i) as [r ->]; [lia|].
  apply IH. rewrite length_insert. lia.
Qed.

Lemma fill_items_raise items : forall lod,
  Exists (fun kv => length lod < length kv.2) items ->
  fill_items items lod = Raise IndexError.
Proof.
  induction items as [|[k v] items IH]; intros lod Hex; simpl.
  - by apply Exists_nil in Hex.
  - destruct (decide (length v <= length lod)) as [Hle|Hgt].
    + pose proof (fill_column_is_ok k v 0 lod Hle) as Hok.
      destruct (fill_column k 0 v lod) as [lod1|e] eqn:Hcol; [simpl|done].
      apply IH. rewrite (fill_column_length _ _ _ _ _ Hcol).
      apply Exists_cons in Hex as [Hv|]; [simpl in Hv; lia|done].
    + rewrite fill_column_raise by (simpl; lia). done.
Qed.
End DictToListFacts.

Section DictToListSpec.
Context {K : Type} `{EqDecision K} {V : Type}.
Implicit Types (k : K) (v col : list V) (d input_dict : dict K (list V)).

Lemma dict_get_row_at d k j :
  NoDup (keys d) -> dict_get k (row_at j d) = dict_get k d ≫= (.!! j).
Proof.
  unfold keys. induction d as [|[k' v'] d IH]; [done|].
  rewrite fmap_cons, NoDup_cons. intros [Hk' Hd]. rewrite row_at_cons. simpl.
  case_decide as Hk; subst; simpl.
  - destruct (v' !! j) as [x|]; simpl; [by rewrite decide_True|].
    apply dict_get_None. intros Hin%keys_row_at_subseteq. by apply Hk'.
  - destruct (v' !! j) as [x|]; simpl; [rewrite decide_False by done|]; auto.
Qed.

Lemma keys_row_at_full d j :
  Forall (fun kv => j < length kv.2) d -> keys (row_at j d) = keys d.
Proof.
  unfold keys. induction 1 as [|[k v] d Hv _ IH]; [done|].
  rewrite row_at_cons. simpl in *.
  destruct (lookup_lt_is_Some_2 v j Hv) as [x ->]. simpl. f_equal. exact IH.
Qed.

(** When no column is longer than the first one, [dict_to_list] succeeds
    and its [j]-th record is row [j] of the table. *)
Lemma dict_to_list_closed_form k0 v0 rest :
  NoDup (keys ((k0, v0) :: rest)) ->
  Forall (fun kv => length kv.2 <= length v0) rest ->
  exists records,
    dict_to_list ((k0, v0) :: rest) = Ok records /\
    length records = length v0 /\
    forall j, j < length v0 -> records !! j = Some (row_at j ((k0, v0) :: rest)).
Proof.
  intros Hnd Hlen. unfold dict_to_list.
  destruct (fill_items_ok ((k0, v0) :: rest) (replicate (length v0) []))
    as (records & Hfill & Hrec); [|done| |].
  - rewrite length_replicate. apply Forall_cons. split; [simpl; lia|done].
  - intros r k [-> _]%elem_of_replicate _. apply not_elem_of_nil.
  - exists records. split; [done|].
    pose proof (fill_items_length _ _ _ Hfill) as Hl.
    rewrite length_replicate in Hl. split; [done|].
    intros j Hj. rewrite Hrec, lookup_replicate_2 by done. done.
Qed.

(** C2. For a non-empty column table whose columns all have length [N],
    [dict_to_list] returns exactly [N] records, in row order; record [i]
    maps every key [k] of the table to element [i] of column [k], and has
    the keys of the table (in the same order). Being a function of its
    argument alone, the result is deterministic and involves no I/O. *)
Theorem dict_to_list_transposes input_dict (N : nat) :
  input_dict <> [] ->
  NoDup (keys input_dict) ->
  Forall (fun kv => length kv.2 = N) input_dict ->
  exists records,
    dict_to_list input_dict = Ok records /\
    length records = N /\
    (forall k col i, dict_get k input_dict = Some col -> i < N ->
       exists r x, records !! i = Some r /\ col !! i = Some x /\
                   dict_get k r = Some x) /\
    (forall r, r ∈ records -> keys r = keys input_dict).
Proof.
  intros Hne Hnd Hlen. destruct input_dict as [|[k0 v0] rest]; [done|].
  pose proof Hlen as [Hv0 Hrest]%Forall_cons. simpl in Hv0.
  destruct (dict_to_list_closed_form k0 v0 rest) as (records & Hrun & Hl & Hrec);
    [done| |].
  { eapply Forall_impl; [exact Hrest|]. simpl. intros; lia. }
  exists records. split; [done|]. split; [lia|]. split.
  - intros k col i Hcol Hi.
    assert (length col = N) as Hcl.
    { apply dict_get_Some_elem in Hcol.
      by apply (proj1 (Forall_forall _ _) Hlen _ Hcol). }
    destruct (lookup_lt_is_Some_2 col i) as [x Hx]; [lia|].
    exists (row_at i ((k0, v0) :: rest)), x. split; [apply Hrec; lia|].
    split; [done|]. rewrite dict_get_row_at by done. rewrite Hcol. done.
  - intros r [j Hj]%list_elem_of_lookup_1.
    pose proof (lookup_lt_Some _ _ _ Hj) as Hjl.
    rewrite Hrec in Hj by lia. assert (r = row_at j ((k0, v0) :: rest)) as -> by congruence.
    apply keys_row_at_full. eapply Forall_impl; [exact Hlen|].
    simpl. intros; lia.
Qed.

(** C10. The first column in iteration order, of length [N], governs the
    output: when no other column is longer than [N] the call returns
    exactly [N] records, and record [i] lacks key [k] whenever column [k]
    has at most [i] elements (and holds element [i] of it otherwise);
    when some column is longer than [N] the call raises [IndexError]. *)
Theorem dict_to_list_first_column_governs input_dict k0 v0 rest :
  input_dict = (k0, v0) :: rest ->
  NoDup (keys input_dict) ->
  (Forall (fun kv => length kv.2 <= length v0) rest ->
     exists records,
       dict_to_list input_dict = Ok records /\
       length records = length v0 /\
       forall i r k col,
         records !! i = Some r -> dict_get k input_dict = Some col ->
         (length col <= i -> dict_get k r = None) /\
         (i < length col -> dict_get k r = col !! i)) /\
  (Exists (fun kv => length v0 < length kv.2) rest ->
     dict_to_list input_dict = Raise IndexError).
Proof.
  intros -> Hnd. split.
  - intros Hlen.
    destruct (dict_to_list_closed_form k0 v0 rest) as (records & Hrun & Hl & Hrec);
      [done..|].
    exists records. split; [done|]. split; [done|].
    intros i r k col Hr Hcol.
    pose proof (lookup_lt_Some _ _ _ Hr) as Hi.
    rewrite Hrec in Hr by lia. assert (r = row_at i ((k0, v0) :: rest)) as -> by congruence.
    rewrite dict_get_row_at by done. rewrite Hcol. simpl. split; [|done].
    intros Hshort. by apply lookup_ge_None_2.
  - intros Hex. unfold dict_to_list. apply fill_items_raise.
    rewrite length_replicate. by apply Exists_cons_tl.
Qed.
End DictToListSpec.

(** ** [read_abunds] *)

Section ReadAbundsFacts.
Context {num : Type}.
Implicit Types (dat : ndarray num) (ret : dict string (list num))
  (header text k : string) (idxs : list nat).

Lemma column_inv dat j col :
  column dat j = Ok col ->
  exists ncols rows, dat = Array2 ncols rows /\ length col = length rows.
Proof.
  destruct dat as [x|xs|ncols rows]; simpl; [done..|].
  destruct (_ && _)%bool; [|done].
  destruct (mapM _ rows) as [c|] eqn:Hc; [|done].
  intros Hcol. assert (c = col) as -> by congruence.
  exists ncols, rows. split; [done|]. symmetry. by eapply length_mapM.
Qed.

Lemma column_ok (ncols : nat) (rows : list (list num)) (j : Z) :
  Forall (fun r => length r = ncols) rows ->
  (- Z.of_nat ncols <= j < Z.of_nat ncols)%Z ->
  exists col, column (Array2 ncols rows) j = Ok col /\ length col = length rows.
Proof.
  intros Hrows Hj. simpl.
  replace ((- Z.of_nat ncols <=? j) && (j <? Z.of_nat ncols))%Z with true
    by (symmetry; apply andb_true_intro; split; [apply Z.leb_le|apply Z.ltb_lt]; lia).
  destruct (mapM_is_Some_2 (fun row : list num => row !! Z.to_nat (j mod Z.of_nat ncols)) rows)
    as [col Hcol].
  - eapply Forall_impl; [exact Hrows|]. intros r Hr. simpl.
    apply lookup_lt_is_Some_2. rewrite Hr.
    pose proof (Z.mod_pos_bound j (Z.of_nat ncols)). lia.
  - rewrite Hcol. exists col. split; [done|]. symmetry. by eapply length_mapM.
Qed.

Lemma elem_of_keys_dict_set ret k k' (col : list num) :
  k' ∈ keys (dict_set k col ret) <-> k' = k \/ k' ∈ keys ret.
Proof.
  rewrite keys_dict_set. case_decide as Hk.
  - split; [by right|]. by intros [->|].
  - rewrite elem_of_app, list_elem_of_singleton. tauto.
Qed.

Lemma Forall_dict_set (Q : string * list num -> Prop) ret k (col : list num) :
  Forall Q ret -> Q (k, col) -> Forall Q (dict_set k col ret).
Proof.
  intros Hret Hq. induction Hret as [|[k' c'] d Hx Hd IH]; simpl.
  - by apply Forall_singleton.
  - case_decide; subst; apply Forall_cons; auto.
Qed.

(** One iteration of the loop, spelled out. *)
Lemma slots_loop_cons dat header i idxs ret :
  slots_loop dat header (i :: idxs) ret =
  if Nat.even i
  then number <- int_of_str (slice 0 3 (slot header i)) ;;
       col <- column dat number ;;
       slots_loop dat header idxs (dict_set (species_name header i) col ret)
  else slots_loop dat header idxs ret.
Proof. done. Qed.

Lemma slots_loop_app dat header idxs1 idxs2 : forall ret,
  slots_loop dat header (idxs1 ++ idxs2) ret =
  (ret1 <- slots_loop dat header idxs1 ret ;; slots_loop dat header idxs2 ret1).
Proof.
  induction idxs1 as [|i idxs1 IH]; intros ret; [done|].
  rewrite <-app_comm_cons, !slots_loop_cons.
  destruct (Nat.even i); [|by apply IH].
  destruct (int_of_str _) as [number|]; simpl; [|done].
  destruct (column dat number) as [col|]; simpl; [|done]. apply IH.
Qed.

Lemma slots_loop_keys dat header idxs : forall ret ret',
  slots_loop dat header idxs ret = Ok ret' ->
  forall k, k ∈ keys ret' <->
    k ∈ keys ret \/
    k ∈ species_name header <$> filter (fun i => Nat.even i = true) idxs.
Proof.
  induction idxs as [|i idxs IH]; intros ret ret'.
  - simpl. intros Hr k. assert (ret = ret') as -> by congruence.
    split; [by left|]. intros [?|Hin]; [done|]. by apply elem_of_nil in Hin.
  - rewrite slots_loop_cons. destruct (Nat.even i) eqn:Hi.
    + destruct (int_of_str _) as [number|]; simpl; [|done].
      destruct (column dat number) as [col|]; simpl; [|done].
      intros Hloop k. rewrite (IH _ _ Hloop), elem_of_keys_dict_set.
      rewrite filter_cons_True, fmap_cons, elem_of_cons by done. tauto.
    + intros Hloop k. rewrite (IH _ _ Hloop).
      rewrite filter_cons_False by congruence. done.
Qed.

Lemma slots_loop_wf dat header (n : nat) idxs : forall ret ret',
  (forall j col, column dat j = Ok col -> length col = n) ->
  slots_loop dat header idxs ret = Ok ret' ->
  NoDup (keys ret) /\ Forall (fun kv => length kv.2 = n) ret ->
  NoDup (keys ret') /\ Forall (fun kv => length kv.2 = n) ret'.
Proof.
  intros ret ret' Hdat. revert ret ret'.
  induction idxs as [|i idxs IH]; intros ret ret'.
  - simpl. intros Hr. by assert (ret = ret') as -> by congruence.
  - rewrite slots_loop_cons. destruct (Nat.even i); [|by apply IH].
    destruct (int_of_str _) as [number|]; simpl; [|done].
    destruct (column dat number) as [col|] eqn:Hcol; simpl; [|done].
    intros Hloop [Hnd Hlen]. apply (IH _ _ Hloop). split.
    + by apply NoDup_keys_dict_set.
    + apply Forall_dict_set; [done|]. simpl. by eapply Hdat.
Qed.

Lemma slots_loop_ok dat header idxs : forall ret,
  (forall i, i ∈ idxs -> Nat.even i = true ->
     exists number, int_of_str (slice 0 3 (slot header i)) = Ok number /\
                    is_ok (column dat number) = true) ->
  is_ok (slots_loop dat header idxs ret) = true.
Proof.
  induction idxs as [|i idxs IH]; intros ret Hidx; [done|].
  rewrite slots_loop_cons. destruct (Nat.even i) eqn:Hi.
  - destruct (Hidx i) as (number & -> & Hcol); [left|done|]. simpl.
    destruct (column dat number) as [col|]; [simpl|done].
    apply IH. intros i' Hi'. apply Hidx. by right.
  - apply IH. intros i' Hi'. apply Hidx. by right.
Qed.

(** Slots whose name differs from [k] leave the binding of [k] alone. *)
Lemma slots_loop_get_other dat header k idxs : forall ret ret',
  slots_loop dat header idxs ret = Ok ret' ->
  (forall i, i ∈ idxs -> Nat.even i = true -> species_name header i <> k) ->
  dict_get k ret' = dict_get k ret.
Proof.
  induction idxs as [|i idxs IH]; intros ret ret'.
  - simpl. intros Hr _. by assert (ret = ret') as -> by congruence.
  - rewrite slots_loop_cons. intros Hloop Hidx.
    assert (forall i', i' ∈ idxs -> Nat.even i' = true -> species_name header i' <> k)
      as Hrest by (intros i' Hi'; apply Hidx; by right).
    destruct (Nat.even i) eqn:Hi; [|by apply IH].
    destruct (int_of_str _) as [number|]; simpl in Hloop; [|done].
    destruct (column dat number) as [col|]; simpl in Hloop; [|done].
    rewrite (IH _ _ Hloop Hrest), dict_get_set.
    rewrite decide_False; [done|]. apply Hidx; [left|done].
Qed.

(** The binding made at an even slot survives unless a later even slot
    carries the same name. *)
Lemma slots_loop_binding dat header i idxs1 idxs2 ret ret' :
  slots_loop dat header (idxs1 ++ i :: idxs2) ret = Ok ret' ->
  Nat.even i = true ->
  (forall i', i' ∈ idxs2 -> Nat.even i' = true ->
     species_name header i' <> species_name header i) ->
  exists number col,
    int_of_str (slice 0 3 (slot header i)) = Ok number /\
    column dat number = Ok col /\
    dict_get (species_name header i) ret' = Some col.
Proof.
  rewrite slots_loop_app. intros Hloop Hi Hlater.
  destruct (slots_loop dat header idxs1 ret) as [ret1|]; cbn [Py.bind] in Hloop; [|done].
  rewrite slots_loop_cons, Hi in Hloop.
  destruct (int_of_str _) as [number|]; simpl in Hloop; [|done].
  destruct (column dat number) as [col|] eqn:Hcol; simpl in Hloop; [|done].
  exists number, col. split; [done|]. split; [done|].
  rewrite (slots_loop_get_other _ _ _ _ _ _ Hloop Hlater), dict_get_set.
  by rewrite decide_True.
Qed.
End ReadAbundsFacts.

Section ReadAbundsRuns.
Context {num : Type} (float_of_token : string -> num).
Implicit Types (ret : dict string (list num)) (records : list (dict string num))
  (header text k : string).

(** The steps that a successful construction of the column table took. *)
Lemma read_abunds_table_inv text ret :
  read_abunds_table float_of_token text = Ok ret ->
  exists header ncols rows p t rho,
    header_of text = Ok header /\
    genfromtxt float_of_token (readlines text) = Ok (Array2 ncols rows) /\
    column (Array2 ncols rows) 0 = Ok p /\
    column (Array2 ncols rows) 1 = Ok t /\
    column (Array2 ncols rows) 2 = Ok rho /\
    slots_loop (Array2 ncols rows) header (seq 0 (n_slots header))
      [("P", p); ("T", t); ("rho", rho)] = Ok ret.
Proof.
  unfold read_abunds_table. intros Hrun.
  destruct (header_of text) as [header|]; cbn [Py.bind] in Hrun; [|done].
  destruct (genfromtxt _ _) as [dat|]; cbn [Py.bind] in Hrun; [|done].
  destruct (column dat 0) as [p|] eqn:Hp; cbn [Py.bind] in Hrun; [|done].
  destruct (column_inv _ _ _ Hp) as (ncols & rows & -> & _).
  destruct (column _ 1) as [t|] eqn:Ht; cbn [Py.bind] in Hrun; [|done].
  destruct (column _ 2) as [rho|] eqn:Hrho; cbn [Py.bind] in Hrun; [|done].
  by exists header, ncols, rows, p, t, rho.
Qed.

(** The column table of a successful run: distinct keys, one column per
    key, all of the length of the numeric body, and no key besides the
    three fixed ones and the names of the even-indexed slots. *)
Lemma read_abunds_table_wf text ret header :
  read_abunds_table float_of_token text = Ok ret ->
  header_of text = Ok header ->
  exists ncols rows,
    genfromtxt float_of_token (readlines text) = Ok (Array2 ncols rows) /\
    NoDup (keys ret) /\
    Forall (fun kv => length kv.2 = length rows) ret /\
    forall k, k ∈ keys ret <-> k ∈ ["P"; "T"; "rho"] \/ k ∈ even_slot_names header.
Proof.
  intros (header' & ncols & rows & p & t & rho & Hh & Hgen & Hp & Ht & Hrho & Hloop)
    %read_abunds_table_inv Hheader.
  assert (header' = header) as -> by congruence.
  exists ncols, rows. split; [done|].
  set (ret0 := [("P", p); ("T", t); ("rho", rho)]) in *.
  assert (forall j col, column (Array2 ncols rows) j = Ok col -> length col = length rows)
    as Hcols.
  { intros j col (? & ? & Heq & Hl)%column_inv. congruence. }
  assert (NoDup (keys ret0)) as Hnd0.
  { unfold keys, ret0. simpl. apply (bool_decide_unpack _). by vm_compute. }
  assert (Forall (fun kv : string * list num => length kv.2 = length rows) ret0) as Hlen0.
  { unfold ret0. repeat apply Forall_cons_2; simpl; eauto using Forall_nil_2. }
  destruct (slots_loop_wf _ _ _ _ _ _ Hcols Hloop (conj Hnd0 Hlen0)) as [Hnd Hlen].
  pose proof (slots_loop_keys _ _ _ _ _ Hloop) as Hkeys.
  split; [done|]. split; [done|].
  intros k. rewrite Hkeys. unfold even_slot_names, keys, ret0. simpl.
  rewrite !elem_of_cons. tauto.
Qed.

(** A column table that was built is always turned into records: row [j]
    of the table becomes record [j]. *)
Lemma read_abunds_of_table text ret header :
  read_abunds_table float_of_token text = Ok ret ->
  header_of text = Ok header ->
  exists ncols rows records,
    genfromtxt float_of_token (readlines text) = Ok (Array2 ncols rows) /\
    read_abunds float_of_token text = Ok records /\
    length records = length rows /\
    (forall j, j < length rows -> records !! j = Some (row_at j ret)) /\
    (forall r, r ∈ records -> keys r = keys ret) /\
    NoDup (keys ret) /\
    (forall k, k ∈ keys ret <-> k ∈ ["P"; "T"; "rho"] \/ k ∈ even_slot_names header).
Proof.
  intros Htable Hheader.
  destruct (read_abunds_table_wf _ _ _ Htable Hheader)
    as (ncols & rows & Hgen & Hnd & Hlen & Hkeys).
  destruct ret as [|[k0 v0] rest] eqn:Hret.
  { exfalso. assert ("P" ∈ keys (@nil (string * list num))) as Hin
      by (apply Hkeys; left; left).
    by apply elem_of_nil in Hin. }
  rewrite <-Hret in *.
  pose proof Hlen as Hlen'. rewrite Hret in Hlen'.
  apply Forall_cons in Hlen' as [Hv0 Hrest]. simpl in Hv0.
  destruct (dict_to_list_closed_form k0 v0 rest) as (records & Hrun & Hl & Hrows).
  { by rewrite <-Hret. }
  { eapply Forall_impl; [exact Hrest|]. simpl. intros; lia. }
  rewrite <-Hret in Hrun, Hrows.
  exists ncols, rows, records. split; [done|]. split.
  { unfold read_abunds. by rewrite Htable. }
  split; [lia|]. split; [intros j Hj; apply Hrows; lia|]. split; [|done].
  intros r [j Hj]%list_elem_of_lookup_1.
  pose proof (lookup_lt_Some _ _ _ Hj) as Hjl.
  rewrite Hrows in Hj by lia. assert (r = row_at j ret) as -> by congruence.
  apply keys_row_at_full. eapply Forall_impl; [exact Hlen|].
  simpl. intros; lia.
Qed.

Lemma read_abunds_inv text records :
  read_abunds float_of_token text = Ok records ->
  exists ret header,
    read_abunds_table float_of_token text = Ok ret /\ header_of text = Ok header.
Proof.
  unfold read_abunds. intros Hrun.
  destruct (read_abunds_table _ text) as [ret|] eqn:Htable; [|done].
  exists ret. unfold read_abunds_table in Htable.
  destruct (header_of text) as [header|]; [|done]. by exists header.
Qed.
End ReadAbundsRuns.

Section StringFacts.
Lemma chars_str (l : list ascii) : chars (str l) = l.
Proof. apply String.list_ascii_of_string_of_list_ascii. Qed.


Lemma length_slot header i : length (chars (slot header i)) <= 22.
Proof.
  unfold slot, slice. rewrite chars_str, length_take. lia.
Qed.

(** A slot has at most 22 characters, so [slot[3:]] is its characters 3
    through 21. *)
Lemma slice_from_slot header i :
  slice_from 3 (slot header i) = slice 3 22 (slot header i).
Proof.
  unfold slice_from, slice. f_equal. symmetry. apply take_ge.
  rewrite length_drop. pose proof (length_slot header i). lia.
Qed.

Lemma remove_char_no_occurrence c s : c ∉ chars (remove_char c s).
Proof.
  unfold remove_char. rewrite chars_str. by intros [Hc _]%list_elem_of_filter.
Qed.

Lemma filter_ne_replicate (c : ascii) n :
  filter (fun x => x <> c) (replicate n c) = [].
Proof.
  induction n as [|n IH]; [done|]. simpl.
  rewrite filter_cons_False by (intros Hc; by apply Hc). done.
Qed.

Lemma filter_ne_id (c : ascii) (l : list ascii) : c ∉ l -> filter (fun x => x <> c) l = l.
Proof.
  induction l as [|x l IH]; [done|]. intros [Hx Hl]%not_elem_of_cons.
  rewrite filter_cons_True by congruence. by rewrite IH.
Qed.

(** Removing the padding character from a padded word leaves the word. *)
Lemma remove_char_padded c s a (core : list ascii) b :
  chars s = replicate a c ++ core ++ replicate b c -> c ∉ core ->
  remove_char c s = str core.
Proof.
  intros Hs Hcore. unfold remove_char.
  rewrite Hs, !filter_app, !filter_ne_replicate, filter_ne_id by done.
  by rewrite app_nil_r.
Qed.


Lemma elem_of_even_slot_names header k :
  k ∈ even_slot_names header <->
  exists i, i < n_slots header /\ Nat.even i = true /\ species_name header i = k.
Proof.
  unfold even_slot_names. rewrite list_elem_of_fmap. split.
  - intros (i & -> & [Hi Hin%elem_of_seq]%list_elem_of_filter).
    exists i. split; [lia|done].
  - intros (i & Hi & Hev & <-). exists i. split; [done|].
    apply list_elem_of_filter. split; [done|]. apply elem_of_seq. lia.
Qed.
End StringFacts.

Section ReadAbundsSpec.
Context {num : Type} (float_of_token : string -> num).
Implicit Types (records : list (dict string num)) (r : dict string num)
  (header text k : string).



(** C5 (amended). For an even-indexed header slot, the species name used
    as an output key is characters 3 through 21 of the slot with every
    space character removed, interior ones included (and [C2H2] when that
    gives [C2H2,acetylene]). The name holds no space; it is the field
    without its padding whenever the padding consists of spaces and the
    padded word holds none. *)
Theorem even_slot_key_drops_all_spaces text header records i r :
  read_abunds float_of_token text = Ok records ->
  header_of text = Ok header ->
  i < n_slots header ->
  Nat.even i = true ->
  r ∈ records ->
  (if decide (squeezed_name header i = "C2H2,acetylene")
   then "C2H2" else squeezed_name header i) ∈ keys r /\
  (SPACE ∉ chars (squeezed_name header i)) /\
  (forall a core b,
     chars (name_field header i)
       = replicate a SPACE ++ core ++ replicate b SPACE ->
     SPACE ∉ core -> squeezed_name header i = str core).
Proof.
  intros Hrun Hheader Hi Hev Hr. unfold squeezed_name, name_field.
  destruct (read_abunds_inv _ _ _ Hrun) as (ret & header' & Htable & Hh).
  assert (header' = header) as -> by congruence.
  destruct (read_abunds_of_table _ _ _ _ Htable Hheader)
    as (ncols & rows & records' & _ & Hrun' & _ & _ & Hkr & _ & Hkeys).
  assert (records' = records) as -> by congruence.
  split; [|split].
  - rewrite (Hkr r Hr). apply Hkeys. right. apply elem_of_even_slot_names.
    exists i. split; [done|]. split; [done|].
    unfold species_name. by rewrite slice_from_slot.
  - apply remove_char_no_occurrence.
  - intros a core b. apply remove_char_padded.
Qed.
End ReadAbundsSpec.

Section GenfromtxtFacts.
Context {num : Type} (float_of_token : string -> num).

Lemma filter_nonempty_id (l : list (list string)) :
  Forall (fun r => r <> []) l -> filter (fun r => r <> []) l = l.
Proof.
  induction 1 as [|r l Hr _ IH]; [done|].
  rewrite filter_cons_True by done. by rewrite IH.
Qed.

(** A table of at least two rows and two columns under a header line
    without fields (a comment line) is read as a two-dimensional array,
    one row per body line. *)
Lemma genfromtxt_commented_header first body (w : nat) :
  split_line first = [] ->
  Forall (fun line => length (split_line line) = w) body ->
  2 <= w -> 2 <= length body ->
  genfromtxt float_of_token (first :: body)
  = Ok (Array2 w (fmap float_of_token <$> (split_line <$> body))).
Proof.
  intros Hfirst Hbody Hw Hlen. unfold genfromtxt.
  rewrite fmap_cons, filter_cons_False by (rewrite Hfirst; by intros []).
  rewrite filter_nonempty_id.
  2:{ apply Forall_fmap. eapply Forall_impl; [exact Hbody|].
      intros line Hl Hnil. simpl in Hl, Hnil. rewrite Hnil in Hl. simpl in Hl. lia. }
  destruct body as [|b1 [|b2 body]]; [simpl in Hlen; lia..|].
  pose proof Hbody as [Hb1 _]%Forall_cons. rewrite !fmap_cons.
  set (rows := split_line b1 :: split_line b2 :: (split_line <$> body)).
  assert (forallb (fun r : list string => length r =? length (split_line b1)) rows = true)
    as ->.
  { apply forallb_forall. intros r Hr%list_elem_of_In. apply Nat.eqb_eq.
    assert (r ∈ split_line <$> (b1 :: b2 :: body)) as Hin by done.
    apply list_elem_of_fmap in Hin as (line & -> & Hline).
    rewrite Hb1. by apply (proj1 (Forall_forall _ _) Hbody). }
  unfold rows. simpl. rewrite Hb1.
  destruct (Nat.eqb_spec w 1) as [->|_]; [lia|done].
Qed.
End GenfromtxtFacts.

Section ReadAbundsTotal.
Context {num : Type} (float_of_token : string -> num).

(** C1 (amended). For a file whose first line is a comment line for
    [genfromtxt] (no field before a [#]), whose body has at least two
    lines, every one with the same number [w >= 3] of fields, and whose
    even-indexed header slots carry an integer index in [-w, w),
    [read_abunds] returns as many records as there are body lines, and
    the key set of every record is P, T, rho and the names decoded from
    the even-indexed slots. *)
Theorem read_abunds_well_formed text first body (w : nat) :
  readlines text = first :: body ->
  split_line first = [] ->
  Forall (fun line => length (split_line line) = w) body ->
  3 <= w ->
  2 <= length body ->
  (forall i, i < n_slots (drop_last first) -> Nat.even i = true ->
     exists number, int_of_str (slice 0 3 (slot (drop_last first) i)) = Ok number /\
                    (- Z.of_nat w <= number < Z.of_nat w)%Z) ->
  exists records,
    read_abunds float_of_token text = Ok records /\
    length records = length body /\
    forall r, r ∈ records ->
      list_to_set (keys r) =@{gset string}
      list_to_set ["P"; "T"; "rho"] ∪ list_to_set (even_slot_names (drop_last first)).
Proof.
  intros Hlines Hfirst Hbody Hw Hlen Hidx.
  set (header := drop_last first) in *.
  set (rows := fmap float_of_token <$> (split_line <$> body)).
  assert (header_of text = Ok header) as Hheader.
  { unfold header_of. by rewrite Hlines. }
  assert (genfromtxt float_of_token (readlines text) = Ok (Array2 w rows)) as Hgen.
  { rewrite Hlines. apply genfromtxt_commented_header; [done..|lia|done]. }
  assert (Forall (fun r : list num => length r = w) rows) as Hrows.
  { unfold rows. apply Forall_fmap, Forall_fmap.
    eapply Forall_impl; [exact Hbody|]. intros line Hl. simpl.
    by rewrite length_fmap. }
  destruct (column_ok w rows 0 Hrows) as (p & Hp & _); [lia|].
  destruct (column_ok w rows 1 Hrows) as (t & Ht & _); [lia|].
  destruct (column_ok w rows 2 Hrows) as (rho & Hrho & _); [lia|].
  pose proof (slots_loop_ok (Array2 w rows) header (seq 0 (n_slots header))
                [("P", p); ("T", t); ("rho", rho)]) as Hloop.
  destruct (slots_loop _ _ _ _) as [ret|] eqn:Hret.
  2:{ assert (false = true) as Habs; [|done]. apply Hloop.
      intros i Hi%elem_of_seq Hev.
      destruct (Hidx i) as (number & Hnum & Hrange); [lia|done|].
      exists number. split; [done|].
      by destruct (column_ok w rows number Hrows Hrange) as (col & -> & _). }
  assert (read_abunds_table float_of_token text = Ok ret) as Htable.
  { unfold read_abunds_table. rewrite Hheader, Hgen. cbn [Py.bind].
    rewrite Hp, Ht, Hrho. cbn [Py.bind]. exact Hret. }
  destruct (read_abunds_of_table _ _ _ _ Htable Hheader)
    as (ncols & rows' & records & Hgen' & Hrun & Hl & _ & Hkr & _ & Hkeys).
  assert (rows' = rows) as -> by congruence.
  exists records. split; [done|]. split.
  { rewrite Hl. unfold rows. by rewrite !length_fmap. }
  intros r Hr. rewrite (Hkr r Hr). apply set_eq. intros k.
  rewrite elem_of_union, !elem_of_list_to_set. apply Hkeys.
Qed.

(** C6: the code on a file without body lines. Whatever the single header
    line is, the array read from the file has fewer than two dimensions
    and the first column selection [dat[:, 0]] raises [IndexError]. *)
Theorem read_abunds_without_body_raises text :
  length (readlines text) <= 1 ->
  read_abunds float_of_token text = Raise IndexError.
Proof.
  intros Hlen. unfold read_abunds, read_abunds_table, header_of.
  destruct (readlines text) as [|first [|second rest]]; [done| |simpl in Hlen; lia].
  cbn [Py.bind]. unfold genfromtxt. rewrite fmap_cons, fmap_nil.
  destruct (split_line first) as [|tok toks] eqn:Hfirst.
  - rewrite filter_cons_False by (by intros []). by rewrite filter_nil.
  - rewrite filter_cons_True by done. rewrite filter_nil.
    cbn [forallb]. rewrite Nat.eqb_refl. simpl. by destruct toks.
Qed.
End ReadAbundsTotal.

(** ** The configuration helpers and the chemistry bridge *)

Section TemperatureModelSpec.
Context {num : Type} (float_of_token : string -> num).
Variable mul : num -> num -> num.
Variable guillot_global :
  list num -> num -> num -> num -> num -> num -> result (list num).

(** C9. For a model name other than [constant] and [guillot],
    [temperature_model] raises nothing and returns [None] as temperature
    profile, with a [params] dictionary that holds the key [model] alone,
    mapped to the given name. *)
Theorem temperature_model_unknown_name temp pressures gravity model :
  model <> "constant" ->
  model <> "guillot" ->
  temperature_model float_of_token mul guillot_global temp pressures gravity model
  = Ok (None, [("model", ParamStr model)]).
Proof.
  intros Hc Hg. unfold temperature_model.
  rewrite !decide_False by done. done.
Qed.
End TemperatureModelSpec.

Section PathFacts.
Lemma chars_append (a b : string) : chars (a +:+ b) = chars a ++ chars b.
Proof. induction a as [|c a IH]; [done|]. simpl. f_equal. exact IH. Qed.

Lemma path_join_absolute a b : is_absolute b -> path_join a b = b.
Proof. intros [rest Hb]. unfold path_join. rewrite Hb. by rewrite decide_True. Qed.

Lemma solver_dir_absolute c : is_absolute c -> is_absolute (solver_dir c).
Proof.
  intros [rest Hc]. unfold solver_dir, path_join. simpl.
  destruct (last (chars c)) as [e|] eqn:He.
  - case_decide; unfold is_absolute; rewrite !chars_append, Hc; by eexists.
  - rewrite Hc in He. by apply last_None in He.
Qed.

Lemma solver_dir_other c : solver_dir c <> c.
Proof.
  intros Heq. apply (f_equal (fun s => length (chars s))) in Heq.
  revert Heq. unfold solver_dir, path_join. simpl.
  destruct (last (chars c)) as [e|] eqn:He.
  - case_decide; rewrite !chars_append, !length_app; simpl; lia.
  - apply last_None in He. rewrite He. simpl. lia.
Qed.
End PathFacts.

Section BridgeSpec.
Context {num : Type} (float_of_token : string -> num) (env : environment num).

(** Splits a run of an [io] computation along the outcomes of its steps. *)
Ltac step_run H :=
  repeat match type of H with
    | context [match ?x with _ => _ end] =>
        lazymatch x with
        | context [match _ with _ => _ end] => fail
        | _ => let E := fresh "E" in
               destruct x eqn:E; cbv beta iota in H; cbn [cwd log] in H
        end
    end.

(** C8. Once [get_PT_abundances_MMW] has changed into the solver
    directory, every exit through an exception leaves the process there:
    the working directory is the solver directory, not the original one.
    The original directory is restored on the success path only, as the
    last call, right after the three working files are deleted. *)
Theorem get_PT_abundances_MMW_not_exception_safe pressure temperature
    (w w' : world num) res :
  get_PT_abundances_MMW float_of_token env pressure temperature w = (res, w') ->
  is_absolute (cwd w) ->
  chdir_error env w (solver_dir (cwd w)) = None ->
  (forall e, res = Raise e ->
     cwd w' = solver_dir (cwd w) /\ cwd w' <> cwd w) /\
  (forall v, res = Ok v ->
     cwd w' = cwd w /\
     exists before,
       log w' = before ++ [System "rm MMWs.dat"; System "rm final_abund_all.dat";
                           System "rm PT_struct.dat"; Chdir (cwd w)]).
Proof.
  intros Hrun Habs Hchdir.
  pose proof (solver_dir_absolute _ Habs) as Habs'.
  pose proof (solver_dir_other (cwd w)) as Hne.
  unfold get_PT_abundances_MMW, io_bind, getcwd, chdir, savetxt, system,
    read_text, io_lift, io_ret in Hrun.
  rewrite Hchdir in Hrun. cbv beta iota in Hrun. cbn [cwd log] in Hrun.
  rewrite (path_join_absolute _ _ Habs') in Hrun.
  step_run Hrun; injection Hrun as <- <-; cbn [cwd log];
    (split; [intros e' He'|intros v' Hv']); try discriminate;
    rewrite ?(path_join_absolute _ _ Habs);
    try (split; [reflexivity|exact Hne]).
  split; [reflexivity|].
  match goal with
  | |- exists before, (((?l ++ _) ++ _) ++ _) ++ _ = _ => exists l
  end.
  by rewrite <-!app_assoc.
Qed.

(** C7: the code on a selector that is neither [std] nor [subsolar]. The
    [raise] statement is given a tuple, so what is raised is [TypeError],
    not the [KeyError] that the tuple names; nothing is copied and the
    process is left as it was. *)
Theorem set_abundance_file_unknown_selector atype (w : world num) :
  atype <> "std" ->
  atype <> "subsolar" ->
  set_abundance_file env atype w = (Raise TypeError, w).
Proof.
  intros Hstd Hsub. unfold set_abundance_file, io_bind.
  rewrite !decide_False by done. done.
Qed.

(** The recognized selectors stage their template: the copy is made
    inside the solver directory and the working directory is restored. *)
Lemma set_abundance_file_recognized atype file (w : world num) :
  (atype = "std" /\ file = "Standard_abundances.inp") \/
  (atype = "subsolar" /\ file = "Subsolar_abundances.inp") ->
  is_absolute (cwd w) ->
  (forall w1 path, chdir_error env w1 path = None) ->
  set_abundance_file env atype w
  = (Ok tt, World (cwd w)
              (log w ++ [Chdir (solver_dir (cwd w));
                         System ("cp " +:+ file +:+ " abundances.inp");
                         Chdir (cwd w)])).
Proof.
  intros Hsel Habs Hchdir.
  pose proof (solver_dir_absolute _ Habs) as Habs'.
  unfold set_abundance_file, io_bind, getcwd, chdir, system, io_ret.
  destruct Hsel as [[-> ->]|[-> ->]]; simpl; rewrite !Hchdir; simpl;
    rewrite (path_join_absolute _ _ Habs'), (path_join_absolute _ _ Habs);
    by rewrite <-!app_assoc.
Qed.
End BridgeSpec.

(** ** Concrete runs *)

Section Runs.
Import Samples.

Ltac by_evaluation := vm_compute; reflexivity.

Lemma NoDup_keys_square_table : NoDup (keys square_table).
Proof. apply (bool_decide_unpack _). by_evaluation. Defined.

Lemma NoDup_keys_ragged_table : NoDup (keys ragged_table).
Proof. apply (bool_decide_unpack _). by_evaluation. Defined.

Lemma dict_to_list_transposes_witness :
  square_table <> [] /\
  NoDup (keys square_table) /\
  Forall (fun kv => length kv.2 = 2) square_table /\
  exists records,
    dict_to_list square_table = Ok records /\
    length records = 2 /\
    (forall k col i, dict_get k square_table = Some col -> i < 2 ->
       exists r x, records !! i = Some r /\ col !! i = Some x /\
                   dict_get k r = Some x) /\
    (forall r, r ∈ records -> keys r = keys square_table).
Proof.
  assert (square_table <> []) as H1 by discriminate.
  assert (Forall (fun kv : string * list nat => length kv.2 = 2) square_table) as H3
    by (repeat constructor).
  exact (conj H1 (conj NoDup_keys_square_table (conj H3
           (dict_to_list_transposes square_table 2 H1 NoDup_keys_square_table H3)))).
Defined.

Lemma dict_to_list_first_column_governs_witness :
  ragged_table = ("a", [1; 2; 3]) :: [("b", [4])] /\
  NoDup (keys ragged_table) /\
  Forall (fun kv : string * list nat => length kv.2 <= 3) [("b", [4])] /\
  exists records,
    dict_to_list ragged_table = Ok records /\
    length records = 3 /\
    forall i r k col,
      records !! i = Some r -> dict_get k ragged_table = Some col ->
      (length col <= i -> dict_get k r = None) /\
      (i < length col -> dict_get k r = col !! i).
Proof.
  assert (Forall (fun kv : string * list nat => length kv.2 <= 3) [("b", [4])]) as H3
    by (repeat constructor).
  split; [reflexivity|]. split; [exact NoDup_keys_ragged_table|]. split; [exact H3|].
  exact (proj1 (dict_to_list_first_column_governs ragged_table "a" [1; 2; 3]
                  [("b", [4])] eq_refl NoDup_keys_ragged_table) H3).
Defined.

Example dict_to_list_ragged_table :
  dict_to_list ragged_table = Ok [[("a", 1); ("b", 4)]; [("a", 2)]; [("a", 3)]] /\
  dict_to_list [("b", [4]); ("a", [1; 2; 3])] = Raise IndexError.
Proof. split; by_evaluation. Qed.

Lemma read_abunds_abunds_file :
  read_abunds field_text abunds_file = Ok abunds_records.
Proof. by_evaluation. Qed.

Lemma header_of_abunds_file : header_of abunds_file = Ok abunds_header.
Proof. by_evaluation. Qed.


Lemma n_slots_abunds_header : n_slots abunds_header = 4.
Proof. by_evaluation. Defined.



Lemma even_slot_key_drops_all_spaces_witness :
  read_abunds field_text abunds_file = Ok abunds_records /\
  header_of abunds_file = Ok abunds_header /\
  0 < n_slots abunds_header /\
  Nat.even 0 = true /\
  squeezed_name abunds_header 0 = "H2" /\
  (if decide (squeezed_name abunds_header 0 = "C2H2,acetylene")
   then "C2H2" else squeezed_name abunds_header 0)
    ∈ keys [("P", "1.0"); ("T", "300.0"); ("rho", "0.001"); ("H2", "0.5");
            ("C2H2", "0.3")] /\
  (SPACE ∉ chars (squeezed_name abunds_header 0)) /\
  (forall a core b,
     chars (name_field abunds_header 0)
       = replicate a SPACE ++ core ++ replicate b SPACE ->
     SPACE ∉ core -> squeezed_name abunds_header 0 = str core).
Proof.
  assert (0 < n_slots abunds_header) as Hi by (rewrite n_slots_abunds_header; lia).
  split; [by_evaluation|]. split; [by_evaluation|]. split; [exact Hi|].
  split; [reflexivity|]. split; [by_evaluation|].
  apply (even_slot_key_drops_all_spaces field_text abunds_file abunds_header
           abunds_records 0); try by_evaluation; [exact Hi|left].
Defined.

(** C5, as stated, fails on a name with a space inside: the specification
    keeps [H2 O], the code binds [H2O]. *)
Lemma interior_space_dropped_counterexample :
  header_of spaced_name_file = Ok spaced_name_header /\
  0 < n_slots spaced_name_header /\
  Nat.even 0 = true /\
  Spec.species_name spaced_name_header 0 = "H2 O" /\
  exists records r,
    read_abunds field_text spaced_name_file = Ok records /\
    records !! 0 = Some r /\
    (Spec.species_name spaced_name_header 0 ∉ keys r) /\
    "H2O" ∈ keys r.
Proof.
  split; [by_evaluation|]. split; [vm_compute; lia|]. split; [reflexivity|].
  split; [by_evaluation|].
  eexists _, _. split; [by_evaluation|]. split; [reflexivity|].
  split; apply (bool_decide_unpack _); by_evaluation.
Qed.

Lemma read_abunds_well_formed_witness :
  readlines abunds_file = (abunds_header +:+ eol) :: [row_1; row_2] /\
  split_line (abunds_header +:+ eol) = [] /\
  Forall (fun line => length (split_line line) = 5) [row_1; row_2] /\
  3 <= 5 /\
  2 <= length [row_1; row_2] /\
  (forall i, i < n_slots (drop_last (abunds_header +:+ eol)) -> Nat.even i = true ->
     exists number,
       int_of_str (slice 0 3 (slot (drop_last (abunds_header +:+ eol)) i)) = Ok number /\
       (- Z.of_nat 5 <= number < Z.of_nat 5)%Z) /\
  exists records,
    read_abunds field_text abunds_file = Ok records /\
    length records = length [row_1; row_2] /\
    forall r, r ∈ records ->
      list_to_set (keys r) =@{gset string}
      list_to_set ["P"; "T"; "rho"]
      ∪ list_to_set (even_slot_names (drop_last (abunds_header +:+ eol))).
Proof.
  assert (readlines abunds_file = (abunds_header +:+ eol) :: [row_1; row_2]) as H1
    by by_evaluation.
  assert (split_line (abunds_header +:+ eol) = []) as H2 by by_evaluation.
  assert (Forall (fun line => length (split_line line) = 5) [row_1; row_2]) as H3
    by (repeat constructor).
  assert (3 <= 5) as H4 by lia.
  assert (2 <= length [row_1; row_2]) as H5 by (simpl; lia).
  assert (forall i, i < n_slots (drop_last (abunds_header +:+ eol)) -> Nat.even i = true ->
            exists number,
              int_of_str (slice 0 3 (slot (drop_last (abunds_header +:+ eol)) i))
                = Ok number /\
              (- Z.of_nat 5 <= number < Z.of_nat 5)%Z) as H6.
  { assert (n_slots (drop_last (abunds_header +:+ eol)) = 4) as -> by by_evaluation.
    intros i Hi Hev.
    destruct i as [|[|[|[|i]]]]; [|discriminate Hev| |discriminate Hev|lia].
    - exists 3%Z. split; [by_evaluation|lia].
    - exists 4%Z. split; [by_evaluation|lia]. }
  exact (conj H1 (conj H2 (conj H3 (conj H4 (conj H5 (conj H6
           (read_abunds_well_formed field_text abunds_file _ _ 5 H1 H2 H3 H4 H5 H6))))))).
Defined.

(** C1, as stated, fails on a header line that is no comment for
    [genfromtxt]: the header of length 21 + 2 * 22 is read as a row of the
    table, and three records are returned for two body lines. *)
Lemma read_abunds_plain_header_counterexample :
  length (chars plain_header) = 21 + 2 * 22 /\
  readlines plain_header_file = (plain_header +:+ eol) :: [row_1; row_2] /\
  Forall (fun line => length (split line) = 5) [row_1; row_2] /\
  ~ exists records,
      read_abunds field_text plain_header_file = Ok records /\
      length records = length [row_1; row_2].
Proof.
  split; [by_evaluation|]. split; [by_evaluation|]. split; [repeat constructor|].
  intros (records & Hrun & Hlen). vm_compute in Hrun.
  injection Hrun as <-. discriminate Hlen.
Qed.

Lemma read_abunds_without_body_raises_witness :
  length (readlines header_only_file) <= 1 /\
  read_abunds field_text header_only_file = Raise IndexError.
Proof.
  assert (length (readlines header_only_file) <= 1) as H by (vm_compute; lia).
  exact (conj H (read_abunds_without_body_raises field_text header_only_file H)).
Defined.

(** The same defect with one body line: a single row is read as a
    one-dimensional array. *)
Example read_abunds_single_row :
  read_abunds field_text (abunds_header +:+ eol +:+ row_1) = Raise IndexError.
Proof. by_evaluation. Qed.

Lemma set_abundance_file_unknown_selector_witness :
  "solar" <> "std" /\
  "solar" <> "subsolar" /\
  set_abundance_file (quiet_env "") "solar" project_world
  = (Raise TypeError, project_world).
Proof.
  assert ("solar" <> "std") as H1 by discriminate.
  assert ("solar" <> "subsolar") as H2 by discriminate.
  exact (conj H1 (conj H2
           (set_abundance_file_unknown_selector (quiet_env "") "solar" project_world H1 H2))).
Defined.

Example set_abundance_file_std :
  set_abundance_file (quiet_env "") "std" project_world
  = (Ok tt, World "/home/user/Platmy"
              [Chdir "/home/user/Platmy/easy_chem";
               System "cp Standard_abundances.inp abundances.inp";
               Chdir "/home/user/Platmy"]).
Proof. by_evaluation. Qed.

Lemma temperature_model_unknown_name_witness :
  "isothermal" <> "constant" /\
  "isothermal" <> "guillot" /\
  temperature_model field_text times flat_profile "1000." ["1e-6"; "1e2"] "981." "isothermal"
  = Ok (None, [("model", ParamStr "isothermal")]).
Proof.
  assert ("isothermal" <> "constant") as H1 by discriminate.
  assert ("isothermal" <> "guillot") as H2 by discriminate.
  exact (conj H1 (conj H2
           (temperature_model_unknown_name field_text times flat_profile
              "1000." ["1e-6"; "1e2"] "981." "isothermal" H1 H2))).
Defined.

(** A run of the bridge in which the solver leaves an abundances file
    without body lines: parsing raises and the process stays in the
    solver directory. *)
Lemma get_PT_abundances_MMW_not_exception_safe_witness :
  get_PT_abundances_MMW field_text (quiet_env header_only_file) ["1.0"] ["300.0"]
    project_world
  = (Raise IndexError,
     World "/home/user/Platmy/easy_chem"
       [Chdir "/home/user/Platmy/easy_chem";
        Savetxt "PT_struct.dat" [("1.0", "300.0")];
        System "./call_easy_chem"]) /\
  is_absolute (cwd project_world) /\
  chdir_error (quiet_env header_only_file) project_world
    (solver_dir (cwd project_world)) = None /\
  "/home/user/Platmy/easy_chem" = solver_dir (cwd project_world) /\
  "/home/user/Platmy/easy_chem" <> cwd project_world.
Proof.
  assert (is_absolute (cwd project_world)) as H2 by (eexists; reflexivity).
  pose proof (get_PT_abundances_MMW_not_exception_safe field_text
                (quiet_env header_only_file) ["1.0"] ["300.0"] project_world
                _ _ eq_refl H2 eq_refl) as [Hfail _].
  split; [|split; [exact H2|split; [reflexivity|]]].
  - by_evaluation.
  - exact (Hfail IndexError ltac:(by_evaluation)).
Defined.

Example get_PT_abundances_MMW_success :
  get_PT_abundances_MMW field_text (quiet_env abunds_file) ["1.0"; "2.0"]
    ["300.0"; "310.0"] project_world
  = (Ok (abunds_records, ["300.0"; "310.0"]),
     World "/home/user/Platmy"
       [Chdir "/home/user/Platmy/easy_chem";
        Savetxt "PT_struct.dat" [("1.0", "300.0"); ("2.0", "310.0")];
        System "./call_easy_chem"; System "rm MMWs.dat";
        System "rm final_abund_all.dat"; System "rm PT_struct.dat";
        Chdir "/home/user/Platmy"]).
Proof. by_evaluation. Qed.
End Runs.


(** * Further properties of [utils.py] *)

(** ** [dict_to_list]: which tables are accepted *)

Section DictToListOutcome.
Context {K : Type} `{EqDecision K} {V : Type}.
Implicit Types (d items : dict K (list V)) (lod : list (dict K V)).

Lemma fill_items_is_ok items : forall lod,
  Forall (fun kv => length kv.2 <= length lod) items ->
  is_ok (fill_items items lod) = true.
Proof.
  induction items as [|[k v] items IH]; intros lod Hlen; [done|].
  apply Forall_cons in Hlen as [Hv Hlen]. simpl in *.
  pose proof (fill_column_is_ok k v 0 lod Hv) as Hok.
  destruct (fill_column k 0 v lod) as [lod1|] eqn:Hcol; [simpl|done].
  apply IH. by rewrite (fill_column_length _ _ _ _ _ Hcol).
Qed.

(** X1. The outcome of [dict_to_list] depends on the lengths of the
    columns alone: [StopIteration] exactly for the empty table,
    [IndexError] exactly when some column is longer than the first one,
    and a result in every other case. *)
Theorem dict_to_list_outcome d :
  (dict_to_list d = Raise StopIteration <-> d = []) /\
  (dict_to_list d = Raise IndexError <->
     exists k0 v0 rest, d = (k0, v0) :: rest /\
       Exists (fun kv => length v0 < length kv.2) rest) /\
  (is_ok (dict_to_list d) = true <->
     exists k0 v0 rest, d = (k0, v0) :: rest /\
       Forall (fun kv => length kv.2 <= length v0) rest).
Proof.
  destruct d as [|[k0 v0] rest].
  - split; [done|]. split; (split; [done|]); by intros (? & ? & ? & ? & _).
  - destruct (decide (Forall (fun kv : K * list V => length kv.2 <= length v0) rest))
      as [Hall|Hsome].
    + assert (is_ok (dict_to_list ((k0, v0) :: rest)) = true) as Hok.
      { unfold dict_to_list. apply fill_items_is_ok. rewrite length_replicate.
        apply Forall_cons. split; [simpl; lia|done]. }
      split; [|split].
      * split; [|done]. intros Hrun. by rewrite Hrun in Hok.
      * split; [intros Hrun; by rewrite Hrun in Hok|].
        intros (k & v & r & Heq & Hex). injection Heq as <- <- <-.
        apply Exists_exists in Hex as (kv & Hin & Hkv).
        pose proof (proj1 (Forall_forall _ _) Hall kv Hin). simpl in *. lia.
      * split; [|done]. intros _. by exists k0, v0, rest.
    + assert (Exists (fun kv : K * list V => length v0 < length kv.2) rest) as Hex.
      { apply not_Forall_Exists in Hsome; [|intros kv; apply _].
        eapply Exists_impl; [exact Hsome|]. simpl. intros kv Hkv. lia. }
      assert (dict_to_list ((k0, v0) :: rest) = Raise IndexError) as Hrun.
      { unfold dict_to_list. apply fill_items_raise.
        rewrite length_replicate. by apply Exists_cons_tl. }
      rewrite Hrun. split; [|split].
      * split; done.
      * split; [|done]. intros _. by exists k0, v0, rest.
      * split; [done|]. intros (k & v & r & Heq & Hall). injection Heq as <- <- <-.
        done.
Qed.
End DictToListOutcome.

(** ** [read_abunds]: what the records hold *)

Section ReadAbundsValues.
Context {num : Type} (float_of_token : string -> num).
Implicit Types (ret : dict string (list num)) (records : list (dict string num))
  (r : dict string num) (header text k : string) (rows : list (list num)).

Lemma genfromtxt_Array2_inv (lines : list string) (ncols : nat) rows :
  genfromtxt float_of_token lines = Ok (Array2 ncols rows) ->
  rows = (fmap float_of_token
            <$> filter (fun fields => fields <> []) (split_line <$> lines)) /\
  Forall (fun row => length row = ncols) rows /\
  2 <= length rows /\ 2 <= ncols.
Proof.
  unfold genfromtxt.
  destruct (filter _ (split_line <$> lines)) as [|t1 toks] eqn:Htoks; [done|].
  destruct (forallb _ (t1 :: toks)) eqn:Hall; [|done].
  assert (t1 <> []) as Ht1.
  { assert (t1 ∈ filter (fun fields : list string => fields <> [])
                   (split_line <$> lines)) as Hin
      by (rewrite Htoks; left).
    by apply list_elem_of_filter in Hin as [? _]. }
  destruct toks as [|t2 toks].
  { simpl. by destruct (float_of_token <$> t1) as [|? [|? ?]]. }
  unfold squeeze. rewrite !fmap_cons.
  destruct (Nat.eqb_spec (length t1) 1) as [|Hne]; [done|].
  intros [= <- <-]. split; [done|]. split; [|split].
  - apply Forall_forall. intros row Hrow.
    assert (row ∈ fmap float_of_token <$> (t1 :: t2 :: toks)) as Hin
      by (by rewrite !fmap_cons).
    apply list_elem_of_fmap in Hin as (tok & -> & Htok%list_elem_of_In).
    rewrite length_fmap. apply Nat.eqb_eq.
    by apply (proj1 (forallb_forall _ _) Hall).
  - simpl. lia.
  - destruct t1; [done|]. simpl in *. lia.
Qed.

Lemma column_Array2_lookup (ncols : nat) rows (n : Z) (col : list num) :
  column (Array2 ncols rows) n = Ok col ->
  (- Z.of_nat ncols <= n < Z.of_nat ncols)%Z /\
  forall j row, rows !! j = Some row ->
    col !! j = row !! Z.to_nat (n mod Z.of_nat ncols) /\ is_Some (col !! j).
Proof.
  simpl. destruct (_ && _)%bool eqn:Hrange; [|done].
  apply andb_prop in Hrange as [Hlo%Z.leb_le Hhi%Z.ltb_lt].
  destruct (mapM _ rows) as [c|] eqn:Hc; [|done].
  intros Hcol. assert (c = col) as -> by congruence. split; [lia|].
  intros j row Hrow. apply mapM_Some_1 in Hc.
  destruct (Forall2_lookup_l _ _ _ _ _ Hc Hrow) as (y & Hy & Hlook).
  rewrite Hy, Hlook. split; [done|by eexists].
Qed.

Lemma slots_loop_columns (dat : ndarray num) header idxs : forall ret ret',
  slots_loop dat header idxs ret = Ok ret' ->
  Forall (fun kv => exists n, column dat n = Ok kv.2) ret ->
  Forall (fun kv => exists n, column dat n = Ok kv.2) ret'.
Proof.
  induction idxs as [|i idxs IH]; intros ret ret'.
  - simpl. intros Hr. by assert (ret = ret') as -> by congruence.
  - rewrite slots_loop_cons. destruct (Nat.even i); [|by apply IH].
    destruct (int_of_str _) as [number|]; cbn [Py.bind]; [|done].
    destruct (column dat number) as [col|] eqn:Hcol; cbn [Py.bind]; [|done].
    intros Hloop Hret. apply (IH _ _ Hloop).
    apply Forall_dict_set; [done|]. by exists number.
Qed.

(** The state of a run that returned records. *)
Lemma read_abunds_run text records :
  read_abunds float_of_token text = Ok records ->
  exists header ncols rows p t rho ret,
    header_of text = Ok header /\
    genfromtxt float_of_token (readlines text) = Ok (Array2 ncols rows) /\
    column (Array2 ncols rows) 0 = Ok p /\
    column (Array2 ncols rows) 1 = Ok t /\
    column (Array2 ncols rows) 2 = Ok rho /\
    slots_loop (Array2 ncols rows) header (seq 0 (n_slots header))
      [("P", p); ("T", t); ("rho", rho)] = Ok ret /\
    NoDup (keys ret) /\
    length records = length rows /\
    (forall j, j < length rows -> records !! j = Some (row_at j ret)) /\
    (forall r, r ∈ records -> keys r = keys ret).
Proof.
  intros Hrun.
  destruct (read_abunds_inv _ _ _ Hrun) as (ret & header & Htable & Hheader).
  destruct (read_abunds_of_table _ _ _ _ Htable Hheader)
    as (ncols & rows & records' & Hgen & Hrun' & Hlen & Hrows & Hkr & Hnd & _).
  assert (records' = records) as -> by congruence.
  destruct (read_abunds_table_inv _ _ _ Htable)
    as (header' & ncols' & rows' & p & t & rho & Hh' & Hgen' & Hp & Ht & Hrho & Hloop).
  assert (header' = header) as -> by congruence.
  assert (Array2 ncols' rows' = Array2 ncols rows) as Heq by congruence.
  injection Heq as -> ->.
  by exists header, ncols, rows, p, t, rho, ret.
Qed.

(** X2. The number of records is the number of lines of the file that
    hold at least one field before a [#]: blank lines and comment lines
    are not counted, wherever they stand, and any other line is. *)
Theorem read_abunds_counts_lines_with_fields text records :
  read_abunds float_of_token text = Ok records ->
  length records
  = length (filter (fun fields => fields <> []) (split_line <$> readlines text)).
Proof.
  intros (header & ncols & rows & p & t & rho & ret & _ & Hgen & _ & _ & _ & _ & _
          & Hlen & _ & _)%read_abunds_run.
  apply genfromtxt_Array2_inv in Hgen as (-> & _). by rewrite Hlen, length_fmap.
Qed.

(** X3. Records do not mix rows: whatever key a record of index [j] binds,
    the value is an entry of row [j] of the table read from the file. *)
Theorem read_abunds_record_values_from_own_row text records (ncols : nat) rows j r k
    (x : num) :
  read_abunds float_of_token text = Ok records ->
  genfromtxt float_of_token (readlines text) = Ok (Array2 ncols rows) ->
  records !! j = Some r ->
  dict_get k r = Some x ->
  exists row, rows !! j = Some row /\ x ∈ row.
Proof.
  intros (header & ncols' & rows' & p & t & rho & ret & _ & Hgen & Hp & Ht & Hrho
          & Hloop & Hnd & Hlen & Hrows & _)%read_abunds_run Hgen' Hr Hx.
  assert (Array2 ncols' rows' = Array2 ncols rows) as Heq by congruence.
  injection Heq as -> ->.
  pose proof (lookup_lt_Some _ _ _ Hr) as Hj. rewrite Hlen in Hj.
  rewrite (Hrows j Hj) in Hr. assert (r = row_at j ret) as -> by congruence.
  rewrite dict_get_row_at in Hx by done.
  destruct (dict_get k ret) as [col|] eqn:Hcol; [simpl in Hx|done].
  assert (Forall (fun kv : string * list num =>
            exists n, column (Array2 ncols rows) n = Ok kv.2) ret) as Hcols.
  { apply (slots_loop_columns _ _ _ _ _ Hloop).
    repeat apply Forall_cons_2; simpl; eauto using Forall_nil_2. }
  apply dict_get_Some_elem in Hcol.
  destruct (proj1 (Forall_forall _ _) Hcols _ Hcol) as [n Hn]. simpl in Hn.
  destruct (lookup_lt_is_Some_2 rows j Hj) as [row Hrow].
  exists row. split; [done|].
  destruct (column_Array2_lookup _ _ _ _ Hn) as [_ Hlook].
  destruct (Hlook j row Hrow) as [Heq _]. rewrite Hx in Heq.
  by eapply list_elem_of_lookup_2.
Qed.

(** X4. The fixed keys: when no even-indexed slot is decoded to [P] (to
    [T], to [rho]), every record binds that key to entry 0 (1, 2) of its
    row. *)
Theorem read_abunds_fixed_keys text header records (ncols : nat) rows k (c : nat)
    j r (row : list num) :
  read_abunds float_of_token text = Ok records ->
  header_of text = Ok header ->
  genfromtxt float_of_token (readlines text) = Ok (Array2 ncols rows) ->
  (k, c) ∈ [("P", 0); ("T", 1); ("rho", 2)] ->
  (forall i, i < n_slots header -> Nat.even i = true -> species_name header i <> k) ->
  records !! j = Some r ->
  rows !! j = Some row ->
  dict_get k r = row !! c /\ is_Some (row !! c).
Proof.
  intros (header' & ncols' & rows' & p & t & rho & ret & Hh & Hgen & Hp & Ht & Hrho
          & Hloop & Hnd & Hlen & Hrows & _)%read_abunds_run Hheader Hgen' Hk Hfree Hr Hrow.
  assert (header' = header) as -> by congruence.
  assert (Array2 ncols' rows' = Array2 ncols rows) as Heq by congruence.
  injection Heq as -> ->.
  pose proof (lookup_lt_Some _ _ _ Hrow) as Hj.
  rewrite (Hrows j Hj) in Hr. assert (r = row_at j ret) as -> by congruence.
  rewrite dict_get_row_at by done.
  rewrite (slots_loop_get_other _ _ k _ _ _ Hloop)
    by (intros i Hi%elem_of_seq; apply Hfree; lia).
  destruct (column_Array2_lookup _ _ _ _ Hp) as [Hr0 Hl0].
  destruct (column_Array2_lookup _ _ _ _ Ht) as [Hr1 Hl1].
  destruct (column_Array2_lookup _ _ _ _ Hrho) as [Hr2 Hl2].
  destruct (Hl0 j row Hrow) as [E0 S0].
  destruct (Hl1 j row Hrow) as [E1 S1].
  destruct (Hl2 j row Hrow) as [E2 S2].
  rewrite Z.mod_small in E0, E1, E2 by lia.
  change (Z.to_nat 0) with 0 in E0. change (Z.to_nat 1) with 1 in E1.
  change (Z.to_nat 2) with 2 in E2.
  apply elem_of_cons in Hk as [Hk|Hk].
  { injection Hk as -> ->. simpl. rewrite <-E0. done. }
  apply elem_of_cons in Hk as [Hk|Hk].
  { injection Hk as -> ->. simpl. rewrite <-E1. done. }
  apply elem_of_cons in Hk as [Hk|Hk].
  { injection Hk as -> ->. simpl. rewrite <-E2. done. }
  by apply elem_of_nil in Hk.
Qed.

(** X5. The last word wins, for every name: an even-indexed slot after
    which no even-indexed slot carries the same decoded name binds that
    name, in every record, to the entry of the row that its index field
    selects (counted from the end when negative). The names [P], [T] and
    [rho] are no exception: such a slot replaces the fixed column. *)
Theorem read_abunds_last_slot_binds text header records (ncols : nat) rows i j r
    (row : list num) :
  read_abunds float_of_token text = Ok records ->
  header_of text = Ok header ->
  genfromtxt float_of_token (readlines text) = Ok (Array2 ncols rows) ->
  i < n_slots header ->
  Nat.even i = true ->
  (forall i', i < i' < n_slots header -> Nat.even i' = true ->
     species_name header i' <> species_name header i) ->
  records !! j = Some r ->
  rows !! j = Some row ->
  exists number,
    int_of_str (slice 0 3 (slot header i)) = Ok number /\
    (- Z.of_nat ncols <= number < Z.of_nat ncols)%Z /\
    dict_get (species_name header i) r = row !! Z.to_nat (number mod Z.of_nat ncols) /\
    is_Some (dict_get (species_name header i) r).
Proof.
  intros (header' & ncols' & rows' & p & t & rho & ret & Hh & Hgen & Hp & Ht & Hrho
          & Hloop & Hnd & Hlen & Hrows & _)%read_abunds_run Hheader Hgen' Hi Hev Hlater
         Hr Hrow.
  assert (header' = header) as -> by congruence.
  assert (Array2 ncols' rows' = Array2 ncols rows) as Heq by congruence.
  injection Heq as -> ->.
  assert (seq 0 (n_slots header) = seq 0 i ++ i :: seq (S i) (n_slots header - S i))
    as Hseq.
  { replace (n_slots header) with (i + S (n_slots header - S i)) at 1 by lia.
    by rewrite seq_app. }
  rewrite Hseq in Hloop.
  destruct (slots_loop_binding _ _ _ _ _ _ _ Hloop Hev) as (number & col & Hnum & Hcol & Hget).
  { intros i' Hi'%elem_of_seq Hev'. apply Hlater; [lia|done]. }
  destruct (column_Array2_lookup _ _ _ _ Hcol) as [Hrange Hlook].
  destruct (Hlook j row Hrow) as [Heq Hsome].
  pose proof (lookup_lt_Some _ _ _ Hrow) as Hj.
  rewrite (Hrows j Hj) in Hr. assert (r = row_at j ret) as -> by congruence.
  exists number. split; [done|]. split; [done|].
  rewrite dict_get_row_at by done. rewrite Hget. simpl. by rewrite <-Heq.
Qed.
End ReadAbundsValues.

(** ** [read_abunds]: the keys and the header *)

Section ReadAbundsKeys.
Context {num : Type} (float_of_token : string -> num).
Implicit Types (ret : dict string (list num)) (records : list (dict string num))
  (r : dict string num) (header text k : string).

Lemma slots_loop_keys_extend (dat : ndarray num) header idxs : forall ret ret',
  slots_loop dat header idxs ret = Ok ret' ->
  exists names, keys ret' = keys ret ++ names.
Proof.
  induction idxs as [|i idxs IH]; intros ret ret'.
  - simpl. intros Hr. assert (ret = ret') as -> by congruence.
    exists []. by rewrite app_nil_r.
  - rewrite slots_loop_cons. destruct (Nat.even i); [|by apply IH].
    destruct (int_of_str _) as [number|]; cbn [Py.bind]; [|done].
    destruct (column dat number) as [col|]; cbn [Py.bind]; [|done].
    intros (names & Hnames)%IH. rewrite keys_dict_set in Hnames.
    case_decide; [by exists names|].
    exists (species_name header i :: names). by rewrite Hnames, <-app_assoc.
Qed.

Lemma n_slots_short header : length (chars header) < 43 -> n_slots header = 0.
Proof.
  intros Hlen. unfold n_slots.
  rewrite (proj2 (Z.quot_small_iff (Z.of_nat (length (chars header)) - 21) 22
                    ltac:(lia))) by lia.
  done.
Qed.

Lemma n_slots_bounds header :
  length (chars header) < 21 + 22 * (n_slots header + 1) /\
  (0 < n_slots header -> 21 + 22 * n_slots header <= length (chars header)).
Proof.
  unfold n_slots. set (L := length (chars header)).
  destruct (decide (L < 21)) as [Hs|Hl].
  - rewrite (proj2 (Z.quot_small_iff (Z.of_nat L - 21) 22 ltac:(lia))) by lia.
    simpl. lia.
  - rewrite Z.quot_div_nonneg by lia.
    pose proof (Z.mul_div_le (Z.of_nat L - 21) 22 ltac:(lia)).
    pose proof (Z.mul_succ_div_gt (Z.of_nat L - 21) 22 ltac:(lia)).
    pose proof (Z.div_pos (Z.of_nat L - 21) 22 ltac:(lia) ltac:(lia)).
    lia.
Qed.

(** X6. Every record starts with the keys [P], [T], [rho], in this order;
    the keys after them are names of even-indexed slots, and there are
    none when the header is shorter than 43 characters. *)
Theorem read_abunds_fixed_keys_first text header records r :
  read_abunds float_of_token text = Ok records ->
  header_of text = Ok header ->
  r ∈ records ->
  exists names,
    keys r = ["P"; "T"; "rho"] ++ names /\
    (forall k, k ∈ names -> k ∈ even_slot_names header) /\
    (length (chars header) < 43 -> names = []).
Proof.
  intros Hrun Hheader Hr.
  destruct (read_abunds_inv _ _ _ Hrun) as (ret & header' & Htable & Hh).
  assert (header' = header) as -> by congruence.
  destruct (read_abunds_of_table _ _ _ _ Htable Hheader)
    as (ncols & rows & records' & Hgen & Hrun' & _ & _ & Hkr & Hnd & Hkeys).
  assert (records' = records) as -> by congruence.
  destruct (read_abunds_table_inv _ _ _ Htable)
    as (header' & ncols' & rows' & p & t & rho & Hh' & _ & _ & _ & _ & Hloop).
  assert (header' = header) as -> by congruence.
  destruct (slots_loop_keys_extend _ _ _ _ _ Hloop) as (names & Hnames).
  exists names. rewrite (Hkr r Hr). split; [exact Hnames|]. split.
  - intros k Hk.
    assert (k ∈ keys ret) as Hin by (rewrite Hnames; apply elem_of_app; by right).
    apply Hkeys in Hin as [Hfix|Hin]; [|done]. exfalso.
    rewrite Hnames in Hnd. apply NoDup_app in Hnd as (_ & Hdisj & _).
    by apply (Hdisj k).
  - intros Hshort. rewrite (n_slots_short _ Hshort) in Hloop. simpl in Hloop.
    assert (ret = [("P", p); ("T", t); ("rho", rho)]) as -> by congruence.
    simpl in Hnames. by destruct names.
Qed.

(** X7. No key of a record holds a space character. *)
Theorem read_abunds_keys_without_space text records r k :
  read_abunds float_of_token text = Ok records ->
  r ∈ records ->
  k ∈ keys r ->
  SPACE ∉ chars k.
Proof.
  intros Hrun Hr Hk.
  destruct (read_abunds_inv _ _ _ Hrun) as (ret & header & Htable & Hheader).
  destruct (read_abunds_of_table _ _ _ _ Htable Hheader)
    as (ncols & rows & records' & _ & Hrun' & _ & _ & Hkr & _ & Hkeys).
  assert (records' = records) as -> by congruence.
  rewrite (Hkr r Hr) in Hk. destruct (proj1 (Hkeys k) Hk) as [Hfix|Hname]; clear Hk.
  - rename Hfix into Hk.
    repeat (apply elem_of_cons in Hk as [->|Hk];
            [apply (bool_decide_unpack _); vm_compute; exact I|]).
    by apply elem_of_nil in Hk.
  - apply elem_of_even_slot_names in Hname as (i & _ & _ & Heq). subst k.
    unfold species_name. case_decide.
    + apply (bool_decide_unpack _). vm_compute. exact I.
    + apply remove_char_no_occurrence.
Qed.

(** X8. The slots that the loop visits are complete: each has 22
    characters, 3 for the index and 19 for the name, and fewer than 22
    characters of the header lie behind the last of them. *)
Theorem visited_slots_are_complete header i :
  i < n_slots header ->
  length (chars (slot header i)) = 22 /\
  length (chars (slice 0 3 (slot header i))) = 3 /\
  length (chars (slice_from 3 (slot header i))) = 19 /\
  21 + 22 * n_slots header <= length (chars header) < 21 + 22 * (n_slots header + 1).
Proof.
  intros Hi. destruct (n_slots_bounds header) as [Hup Hlow].
  assert (length (chars (slot header i)) = 22) as Hslot.
  { unfold slot, slice. rewrite chars_str, length_take, length_drop. lia. }
  split; [done|]. split; [|split; [|lia]].
  - unfold slice. rewrite chars_str, length_take, length_drop. lia.
  - unfold slice_from. rewrite chars_str, length_drop. lia.
Qed.


End ReadAbundsKeys.

(** ** [read_abunds]: the files that are refused *)

Section ReadAbundsErrors.
Context {num : Type} (float_of_token : string -> num).
Implicit Types (text header first : string) (body lines : list string).

Lemma genfromtxt_ragged lines (l1 l2 : string) :
  l1 ∈ lines -> l2 ∈ lines ->
  split_line l1 <> [] -> split_line l2 <> [] ->
  length (split_line l1) <> length (split_line l2) ->
  genfromtxt float_of_token lines = Raise ValueError.
Proof.
  intros Hl1 Hl2 Hf1 Hf2 Hne. unfold genfromtxt.
  assert (forall l, l ∈ lines -> split_line l <> [] ->
            split_line l ∈ filter (fun fields : list string => fields <> [])
                             (split_line <$> lines)) as Hin.
  { intros l Hl Hf. apply list_elem_of_filter. split; [done|].
    apply list_elem_of_fmap. by exists l. }
  pose proof (Hin l1 Hl1 Hf1) as Hin1. pose proof (Hin l2 Hl2 Hf2) as Hin2.
  destruct (filter _ (split_line <$> lines)) as [|t1 toks]; [by apply elem_of_nil in Hin1|].
  destruct (forallb _ (t1 :: toks)) eqn:Hall; [|done].
  exfalso. apply Hne.
  pose proof (proj1 (forallb_forall _ _) Hall) as Hlen.
  apply list_elem_of_In, Hlen, Nat.eqb_eq in Hin1.
  apply list_elem_of_In, Hlen, Nat.eqb_eq in Hin2. congruence.
Qed.

(** X10. A ragged file is refused: two lines that hold fields, but not the
    same number of them, make [read_abunds] raise [ValueError]; the header
    line counts as such a line unless it is a comment. *)
Theorem read_abunds_ragged_file text (l1 l2 : string) :
  l1 ∈ readlines text ->
  l2 ∈ readlines text ->
  split_line l1 <> [] ->
  split_line l2 <> [] ->
  length (split_line l1) <> length (split_line l2) ->
  read_abunds float_of_token text = Raise ValueError.
Proof.
  intros Hl1 Hl2 Hf1 Hf2 Hne.
  pose proof (genfromtxt_ragged _ _ _ Hl1 Hl2 Hf1 Hf2 Hne) as Hgen.
  unfold read_abunds, read_abunds_table, header_of.
  destruct (readlines text) as [|first rest]; [by apply elem_of_nil in Hl1|].
  cbn [Py.bind]. by rewrite Hgen.
Qed.

Lemma column_raises_IndexError (dat : ndarray num) (n : Z) (e : exn) :
  column dat n = Raise e -> e = IndexError.
Proof.
  destruct dat as [x|xs|ncols rows]; simpl; [congruence..|].
  destruct (_ && _)%bool; [|congruence]. destruct (mapM _ rows); congruence.
Qed.

Lemma narrow_array_raises (dat : ndarray num) {A}
    (k : list num -> list num -> list num -> result A) :
  (forall ncols rows, dat = Array2 ncols rows -> ncols < 3) ->
  (p <- column dat 0 ;; t <- column dat 1 ;; rho <- column dat 2 ;; k p t rho)
  = Raise IndexError.
Proof.
  intros Hnarrow.
  destruct (column dat 0) as [p|e] eqn:Hp; cbn [Py.bind];
    [|by rewrite (column_raises_IndexError _ _ _ Hp)].
  destruct (column dat 1) as [t|e] eqn:Ht; cbn [Py.bind];
    [|by rewrite (column_raises_IndexError _ _ _ Ht)].
  destruct (column_inv _ _ _ Hp) as (ncols & rows & -> & _).
  specialize (Hnarrow ncols rows eq_refl). simpl.
  replace (2 <? Z.of_nat ncols)%Z with false by (symmetry; apply Z.ltb_ge; lia).
  by rewrite andb_false_r.
Qed.

(** X11. A table of fewer than three columns is refused: when every line
    that holds fields holds the same number [w < 3] of them, [read_abunds]
    raises [IndexError], however many lines there are. *)
Theorem read_abunds_narrow_table text (w : nat) :
  Forall (fun line => split_line line = [] \/ length (split_line line) = w)
    (readlines text) ->
  w < 3 ->
  read_abunds float_of_token text = Raise IndexError.
Proof.
  intros Hlines Hw. unfold read_abunds, read_abunds_table, header_of.
  destruct (readlines text) as [|first rest] eqn:Hread; [done|].
  cbn [Py.bind]. rewrite <-Hread in *. clear Hread.
  destruct (genfromtxt float_of_token (readlines text)) as [dat|e] eqn:Hgen.
  - cbn [Py.bind].
    rewrite (narrow_array_raises dat
               (fun p t rho =>
                  slots_loop dat (drop_last first)
                    (seq 0 (n_slots (drop_last first)))
                    (dict_set "rho" rho (dict_set "T" t (dict_set "P" p []))))); [done|].
    intros ncols rows ->.
    apply genfromtxt_Array2_inv in Hgen as (Hrows & Hall & Hlen & _).
    destruct (filter _ (split_line <$> readlines text)) as [|t1 toks] eqn:Htoks;
      [subst rows; simpl in Hlen; lia|].
    assert (t1 ∈ filter (fun fields : list string => fields <> [])
                   (split_line <$> readlines text)) as Hin by (rewrite Htoks; left).
    apply list_elem_of_filter in Hin as [Hne (line & -> & Hline)%list_elem_of_fmap].
    pose proof (proj1 (Forall_forall _ _) Hlines line Hline) as [Hnil|Hwidth]; [done|].
    subst rows. rewrite fmap_cons in Hall. apply Forall_cons in Hall as [H1 _].
    rewrite length_fmap in H1. lia.
  - exfalso. revert Hgen. unfold genfromtxt.
    destruct (filter _ (split_line <$> readlines text)) as [|t1 toks] eqn:Htoks; [done|].
    destruct (forallb _ (t1 :: toks)) eqn:Hall; [done|]. intros _.
    assert (forallb (fun r : list string => length r =? length t1) (t1 :: toks) = true)
      as Htrue; [|congruence].
    apply forallb_forall. intros fields Hin%list_elem_of_In. apply Nat.eqb_eq.
    assert (forall f, f ∈ t1 :: toks -> length f = w) as Hwidth.
    { intros f Hf. rewrite <-Htoks in Hf.
      apply list_elem_of_filter in Hf as [Hne (line & -> & Hline)%list_elem_of_fmap].
      by pose proof (proj1 (Forall_forall _ _) Hlines line Hline) as [Hnil|Hwidth]. }
    rewrite (Hwidth fields Hin). symmetry. apply Hwidth. left.
Qed.

(** A table of at least two rows and three columns under a comment header
    brings [read_abunds] to the loop over the header slots. *)
Lemma read_abunds_table_reaches_loop text first body (w : nat) :
  readlines text = first :: body ->
  split_line first = [] ->
  Forall (fun line => length (split_line line) = w) body ->
  3 <= w ->
  2 <= length body ->
  exists rows p t rho,
    Forall (fun row : list num => length row = w) rows /\
    read_abunds_table float_of_token text
    = slots_loop (Array2 w rows) (drop_last first)
        (seq 0 (n_slots (drop_last first))) [("P", p); ("T", t); ("rho", rho)].
Proof.
  intros Hlines Hfirst Hbody Hw Hlen.
  set (rows := fmap float_of_token <$> (split_line <$> body)).
  assert (Forall (fun r : list num => length r = w) rows) as Hrows.
  { unfold rows. apply Forall_fmap, Forall_fmap.
    eapply Forall_impl; [exact Hbody|]. intros line Hl. simpl.
    by rewrite length_fmap. }
  destruct (column_ok w rows 0 Hrows) as (p & Hp & _); [lia|].
  destruct (column_ok w rows 1 Hrows) as (t & Ht & _); [lia|].
  destruct (column_ok w rows 2 Hrows) as (rho & Hrho & _); [lia|].
  exists rows, p, t, rho. split; [done|].
  unfold read_abunds_table, header_of. rewrite Hlines. cbn [Py.bind].
  rewrite (genfromtxt_commented_header float_of_token first body w) by (done || lia).
  cbn [Py.bind]. fold rows. rewrite Hp, Ht, Hrho. done.
Qed.

(** X12. The first even-indexed slot whose index field is no index of the
    table stops the parsing: with [ValueError] when the three characters
    are no integer literal, with [IndexError] when the integer lies
    outside [-w, w) for a table of [w] columns. *)
Theorem read_abunds_bad_index_field text first body (w i : nat) :
  readlines text = first :: body ->
  split_line first = [] ->
  Forall (fun line => length (split_line line) = w) body ->
  3 <= w ->
  2 <= length body ->
  i < n_slots (drop_last first) ->
  Nat.even i = true ->
  (forall i', i' < i -> Nat.even i' = true ->
     exists number, int_of_str (slice 0 3 (slot (drop_last first) i')) = Ok number /\
                    (- Z.of_nat w <= number < Z.of_nat w)%Z) ->
  (int_of_str (slice 0 3 (slot (drop_last first) i)) = Raise ValueError ->
     read_abunds float_of_token text = Raise ValueError) /\
  (forall number,
     int_of_str (slice 0 3 (slot (drop_last first) i)) = Ok number ->
     ~ (- Z.of_nat w <= number < Z.of_nat w)%Z ->
     read_abunds float_of_token text = Raise IndexError).
Proof.
  intros Hlines Hfirst Hbody Hw Hlen Hi Hev Hbefore.
  destruct (read_abunds_table_reaches_loop _ _ _ _ Hlines Hfirst Hbody Hw Hlen)
    as (rows & p & t & rho & Hrows & Htable).
  set (header := drop_last first) in *.
  assert (seq 0 (n_slots header) = seq 0 i ++ i :: seq (S i) (n_slots header - S i))
    as Hseq.
  { replace (n_slots header) with (i + S (n_slots header - S i)) at 1 by lia.
    by rewrite seq_app. }
  unfold read_abunds. rewrite Htable, Hseq, slots_loop_app.
  pose proof (slots_loop_ok (Array2 w rows) header (seq 0 i)
                [("P", p); ("T", t); ("rho", rho)]) as Hok.
  destruct (slots_loop _ _ (seq 0 i) _) as [ret1|] eqn:Hret1.
  2:{ assert (false = true) as Habs; [|done]. apply Hok.
      intros i' Hi'%elem_of_seq Hev'.
      destruct (Hbefore i') as (number & Hnum & Hrange); [lia|done|].
      exists number. split; [done|].
      by destruct (column_ok w rows number Hrows Hrange) as (col & -> & _). }
  cbn [Py.bind]. rewrite slots_loop_cons, Hev. split.
  - by intros ->.
  - intros number -> Hout. cbn [Py.bind].
    assert (column (Array2 w rows) number = Raise IndexError) as ->; [|done].
    simpl. destruct (_ && _)%bool eqn:Hrange; [|done].
    apply andb_prop in Hrange as [Hlo%Z.leb_le Hhi%Z.ltb_lt]. lia.
Qed.
End ReadAbundsErrors.

(** ** The chemistry bridge and the template selection *)

Section BridgeRuns.
Context {num : Type} (float_of_token : string -> num) (env : environment num).

Ltac split_run H :=
  repeat match type of H with
    | context [match ?x with _ => _ end] =>
        lazymatch x with
        | context [match _ with _ => _ end] => fail
        | _ => let E := fresh "E" in
               destruct x eqn:E; cbv beta iota in H; cbn [cwd log] in H
        end
    end.

(** X13. A failed call cleans nothing up. When [get_PT_abundances_MMW]
    raises, it has either changed nothing at all, or stopped before the
    solver was started, or stopped while reading the output files, with
    none of the three [rm] commands issued, or it has issued all three and
    failed in the final change of directory. *)
Theorem get_PT_abundances_MMW_failure_log pressure temperature (w w' : world num)
    (e : exn) :
  get_PT_abundances_MMW float_of_token env pressure temperature w = (Raise e, w') ->
  w' = w \/
  log w' = log w ++ [Chdir (solver_dir (cwd w))] \/
  (exists data,
     log w' = log w ++ [Chdir (solver_dir (cwd w)); Savetxt "PT_struct.dat" data;
                        System "./call_easy_chem"]) \/
  (exists data,
     log w' = log w ++ [Chdir (solver_dir (cwd w)); Savetxt "PT_struct.dat" data;
                        System "./call_easy_chem"; System "rm MMWs.dat";
                        System "rm final_abund_all.dat"; System "rm PT_struct.dat"] /\
     chdir_error env w' (cwd w) = Some e).
Proof.
  intros Hrun.
  unfold get_PT_abundances_MMW, io_bind, getcwd, chdir, savetxt, system,
    read_text, io_lift, io_ret in Hrun.
  cbv beta iota in Hrun. cbn [cwd log] in Hrun.
  split_run Hrun; injection Hrun as Hres <-; try discriminate Hres;
    try (injection Hres as Hres); subst; cbn [cwd log].
  all: try (left; reflexivity).
  all: try (right; left; reflexivity).
  all: try (right; right; left; eexists; rewrite <-!app_assoc; reflexivity).
  right. right. right. eexists. split; [by rewrite <-!app_assoc|]. done.
Qed.


(** X15. [set_abundance_file] shares the pattern of the bridge: when the
    directory cannot be restored after the copy, the template has been
    staged and the process is left in the solver directory. *)
Theorem set_abundance_file_restore_failure atype file (w : world num) (e : exn) :
  (atype = "std" /\ file = "Standard_abundances.inp") \/
  (atype = "subsolar" /\ file = "Subsolar_abundances.inp") ->
  is_absolute (cwd w) ->
  chdir_error env w (solver_dir (cwd w)) = None ->
  chdir_error env
    (World (solver_dir (cwd w))
       (log w ++ [Chdir (solver_dir (cwd w));
                  System ("cp " +:+ file +:+ " abundances.inp")]))
    (cwd w) = Some e ->
  set_abundance_file env atype w
  = (Raise e,
     World (solver_dir (cwd w))
       (log w ++ [Chdir (solver_dir (cwd w));
                  System ("cp " +:+ file +:+ " abundances.inp")])) /\
  solver_dir (cwd w) <> cwd w.
Proof.
  intros Hsel Habs Hfirst Hback.
  pose proof (solver_dir_absolute _ Habs) as Habs'.
  split; [|apply solver_dir_other].
  unfold set_abundance_file, io_bind, getcwd, chdir, system, io_ret.
  destruct Hsel as [[-> ->]|[-> ->]]; simpl; rewrite Hfirst; simpl;
    rewrite (path_join_absolute _ _ Habs'), <-!app_assoc; simpl;
    simpl in Hback; by rewrite Hback.
Qed.
End BridgeRuns.

(** ** [temperature_model] *)

Section TemperatureModelRuns.
Context {num : Type} (float_of_token : string -> num).
Variable mul : num -> num -> num.
Variable guillot_global :
  list num -> num -> num -> num -> num -> num -> result (list num).

(** X16. Whatever the model name, a returned [params] binds [model] to
    that name, and the profile is present exactly for the names [constant]
    and [guillot]. The only exception [temperature_model] can raise is one
    raised by [guillot_global], called for the name [guillot] with the
    constants 0.01, 0.4 and 200. and the given temperature. *)
Theorem temperature_model_outcome temp pressures gravity model :
  (forall t params,
     temperature_model float_of_token mul guillot_global temp pressures gravity model
       = Ok (t, params) ->
     dict_get "model" params = Some (ParamStr model) /\
     (is_Some t <-> model = "constant" \/ model = "guillot")) /\
  (forall e,
     temperature_model float_of_token mul guillot_global temp pressures gravity model
       = Raise e <->
     model = "guillot" /\
     guillot_global pressures (float_of_token "0.01") (float_of_token "0.4") gravity
       (float_of_token "200.") temp = Raise e).
Proof.
  unfold temperature_model.
  destruct (decide (model = "constant")) as [->|Hc].
  { split.
    - intros t params [= <- <-]. split; [done|]. split; [by left|by eexists].
    - intros e. split; [done|]. by intros [? _]. }
  destruct (decide (model = "guillot")) as [->|Hg].
  { destruct (guillot_global _ _ _ _ _ _) as [profile|e']; simpl; split.
    - intros t params [= <- <-]. split; [done|]. split; [by right|by eexists].
    - intros e. split; [done|]. by intros [_ ?].
    - done.
    - intros e. split; [by intros [= ->]|]. by intros [_ [= ->]]. }
  split.
  - intros t params [= <- <-]. split; [done|].
    split; [by intros [? ?]|]. by intros [?|?].
  - intros e. split; [done|]. by intros [? _].
Qed.

(** X17. The constant model is isothermal on the pressure grid: the
    profile has one entry per pressure level, every entry is the product
    of the temperature with 1.0, and [params] records the model name and
    the temperature. *)
Theorem temperature_model_constant temp pressures gravity :
  exists profile,
    temperature_model float_of_token mul guillot_global temp pressures gravity "constant"
    = Ok (Some profile, [("model", ParamStr "constant"); ("temp", ParamFloat temp)]) /\
    length profile = length pressures /\
    Forall (fun x => x = mul temp (float_of_token "1.0")) profile.
Proof.
  eexists. split; [reflexivity|]. unfold ones_like. split.
  - by rewrite length_fmap, length_replicate.
  - apply Forall_fmap, Forall_forall. by intros x [-> _]%elem_of_replicate.
Qed.
End TemperatureModelRuns.

(** ** [check_folders] and [clean_outputs] *)

Section FolderRuns.
Implicit Types (t : gmap string node) (ds : list string).

Lemma isdir_true t d : isdir t d = true <-> t !! d = Some Directory.
Proof. unfold isdir. destruct (t !! d) as [[]|]; naive_solver. Qed.

Lemma check_folders_loop_post refused ds t t' :
  check_folders_loop refused ds t = (Ok tt, t') ->
  (forall d, d ∈ ds -> t' !! d = Some Directory) /\
  (forall name x, t !! name = Some x -> t' !! name = Some x) /\
  (forall name, name ∉ ds -> t' !! name = t !! name).
Proof.
  revert t. induction ds as [|d ds IH]; intros t; simpl.
  - intros [= <-]. split; [by intros d Hd%elem_of_nil|done].
  - destruct (isdir t d) eqn:Hdir.
    + intros (Hall & Hkeep & Hnew)%IH. apply isdir_true in Hdir.
      split; [|split; [done|]].
      * intros d' [->|Hd']%elem_of_cons; [by apply Hkeep|by apply Hall].
      * intros name [_ Hname]%not_elem_of_cons. by apply Hnew.
    + unfold mkdir. destruct (t !! d) as [x|] eqn:Hd; [done|].
      destruct (refused t d); [done|].
      intros (Hall & Hkeep & Hnew)%IH. split; [|split].
      * intros d' [->|Hd']%elem_of_cons; [|by apply Hall].
        apply Hkeep. by rewrite lookup_insert_eq.
      * intros name x Hname. apply Hkeep.
        rewrite lookup_insert_ne; [done|]. intros ->. congruence.
      * intros name [Hne Hname]%not_elem_of_cons.
        rewrite (Hnew name Hname). by rewrite lookup_insert_ne.
Qed.

(** X18. What a successful [check_folders] leaves behind: every name of
    the list is a directory, every entry that existed is still what it
    was, and no other name has appeared. *)
Theorem check_folders_postcondition refused ds t t' :
  check_folders_loop refused ds t = (Ok tt, t') ->
  (forall d, d ∈ ds -> t' !! d = Some Directory) /\
  (forall name x, t !! name = Some x -> t' !! name = Some x) /\
  (forall name, name ∉ ds -> t' !! name = t !! name).
Proof. apply check_folders_loop_post. Qed.

(** X19. [check_folders] succeeds when none of the names is taken by
    something that is no directory and [mkdir] is not refused. *)
Theorem check_folders_succeeds refused ds t :
  (forall d, d ∈ ds -> t !! d <> Some RegularFile) ->
  (forall t0 d, refused t0 d = None) ->
  exists t', check_folders_loop refused ds t = (Ok tt, t').
Proof.
  intros Hfree Hallowed. revert t Hfree.
  induction ds as [|d ds IH]; intros t Hfree; simpl; [by eexists|].
  destruct (isdir t d) eqn:Hdir.
  - apply IH. intros d' Hd'. apply Hfree. by right.
  - unfold mkdir, isdir in *.
    destruct (t !! d) as [[]|] eqn:Hd; [done| |].
    + exfalso. by apply (Hfree d); [left|].
    + rewrite Hallowed. apply IH. intros d' Hd'.
      destruct (decide (d = d')) as [<-|Hne].
      * by rewrite lookup_insert_eq.
      * rewrite lookup_insert_ne by done. apply Hfree. by right.
Qed.

(** X20. [check_folders] is idempotent: after a successful run, a second
    run changes nothing and succeeds, even if [mkdir] has become
    impossible in the meantime. *)
Theorem check_folders_idempotent refused refused' ds t t' :
  check_folders_loop refused ds t = (Ok tt, t') ->
  check_folders_loop refused' ds t' = (Ok tt, t').
Proof.
  intros (Hall & _ & _)%check_folders_loop_post.
  induction ds as [|d ds IH]; simpl; [done|].
  rewrite (proj2 (isdir_true t' d)) by (apply Hall; left).
  apply IH. intros d' Hd'. apply Hall. by right.
Qed.

(** X21. A name of the list that is taken by a regular file stops
    [check_folders] with [FileExistsError], an [OSError]; the directories
    of the names before it have been made by then and stay. *)
Theorem check_folders_blocked refused ds1 d ds2 t :
  (forall d', d' ∈ ds1 -> t !! d' <> Some RegularFile) ->
  t !! d = Some RegularFile ->
  (forall t0 d', refused t0 d' = None) ->
  exists t1,
    check_folders_loop refused (ds1 ++ d :: ds2) t = (Raise OSError, t1) /\
    (forall d', d' ∈ ds1 -> t1 !! d' = Some Directory) /\
    t1 !! d = Some RegularFile /\
    (forall name, name ∉ ds1 -> t1 !! name = t !! name).
Proof.
  intros Hfree Hfile Hallowed. revert t Hfree Hfile.
  induction ds1 as [|d' ds1 IH]; intros t Hfree Hfile; simpl.
  - exists t. unfold isdir, mkdir. rewrite Hfile.
    split; [done|]. split; [by intros ? ?%elem_of_nil|done].
  - assert (forall x, x ∈ ds1 -> t !! x <> Some RegularFile) as Hfree'
      by (intros x Hx; apply Hfree; by right).
    destruct (isdir t d') eqn:Hdir.
    + apply isdir_true in Hdir.
      destruct (IH t Hfree' Hfile) as (t1 & Hrun & Hdirs & Hd & Hrest).
      exists t1. split; [done|]. split; [|split; [done|]].
      * intros x [->|Hx]%elem_of_cons; [|by apply Hdirs].
        destruct (decide (d' ∈ ds1)); [by apply Hdirs|]. by rewrite Hrest.
      * intros name [_ Hname]%not_elem_of_cons. by apply Hrest.
    + unfold mkdir, isdir in *.
      destruct (t !! d') as [[]|] eqn:Hd'; [done| |].
      { exfalso. by apply (Hfree d'); [left|]. }
      rewrite Hallowed.
      assert (d <> d') as Hne by (intros ->; congruence).
      destruct (IH (<[d' := Directory]> t)) as (t1 & Hrun & Hdirs & Hd & Hrest).
      { intros x Hx. destruct (decide (d' = x)) as [<-|Hne'].
        - by rewrite lookup_insert_eq.
        - rewrite lookup_insert_ne by done. by apply Hfree'. }
      { by rewrite lookup_insert_ne. }
      exists t1. split; [done|]. split; [|split; [done|]].
      * intros x [->|Hx]%elem_of_cons; [|by apply Hdirs].
        destruct (decide (d' ∈ ds1)); [by apply Hdirs|].
        rewrite Hrest by done. by rewrite lookup_insert_eq.
      * intros name [Hname1 Hname]%not_elem_of_cons.
        rewrite Hrest by done. by rewrite lookup_insert_ne.
Qed.
End FolderRuns.

Section CleanOutputsRuns.
Context {num : Type}.

(** X22. [clean_outputs] never raises and never leaves the working
    directory: it issues one [rm] command per pair of a directory and a
    pattern, in order, and nothing else; a directory without a pattern at
    its position is not cleaned. *)
Theorem clean_outputs_commands (ds exts : list string) (w : world num) :
  clean_outputs_loop (zip ds exts) w
  = (Ok tt,
     World (cwd w)
       (log w ++ ((fun p => System ("rm " +:+ p.1 +:+ "/" +:+ p.2)) <$> zip ds exts))) /\
  length (zip ds exts) = length ds `min` length exts.
Proof.
  split; [|apply length_zip].
  generalize (zip ds exts) as pairs. intros pairs. revert w.
  induction pairs as [|[d ext] pairs IH]; intros w.
  - simpl. unfold io_ret. rewrite app_nil_r. by destruct w.
  - cbn [clean_outputs_loop]. unfold io_bind, system at 1.
    rewrite IH. cbn [cwd log]. by rewrite <-app_assoc.
Qed.
End CleanOutputsRuns.

(** ** The abundances of [make_model] *)

Section ModelAbundancesRuns.
Context {num : Type} (float_of_token : string -> num).
Variable mul : num -> num -> num.
Implicit Types (mass_fractions : dict string num) (temperature : list num)
  (ss : list string) (abundances : dict string (list num)).

Lemma abundances_loop_raise mass_fractions temperature ss : forall abundances e,
  abundances_loop float_of_token mul mass_fractions temperature ss abundances = Raise e <->
  e = KeyError /\ Exists (fun s => dict_get s mass_fractions = None) ss.
Proof.
  induction ss as [|s ss IH]; intros abundances e; simpl.
  - split; [done|]. by intros [_ ?%Exists_nil].
  - unfold dict_index. destruct (dict_get s mass_fractions) as [x|] eqn:Hs; simpl.
    + rewrite IH, Exists_cons. split; [intros [? ?]; by split; [|right]|].
      intros [? [?|?]]; [congruence|done].
    + split; [intros [= <-]; split; [done|by left]|]. by intros [-> _].
Qed.

Lemma abundances_loop_columns mass_fractions temperature ss :
  forall abundances abundances',
  abundances_loop float_of_token mul mass_fractions temperature ss abundances
    = Ok abundances' ->
  Forall (fun kv => exists x, dict_get kv.1 mass_fractions = Some x /\
                     kv.2 = mul x <$> ones_like float_of_token temperature) abundances ->
  Forall (fun kv => exists x, dict_get kv.1 mass_fractions = Some x /\
                     kv.2 = mul x <$> ones_like float_of_token temperature) abundances'.
Proof.
  induction ss as [|s ss IH]; intros abundances abundances'; simpl.
  - by intros [= <-].
  - unfold dict_index. destruct (dict_get s mass_fractions) as [x|] eqn:Hs; simpl; [|done].
    intros Hloop Hall. apply (IH _ _ Hloop).
    apply Forall_dict_set; [done|]. by exists x.
Qed.

(** X23. [make_model] needs a mass fraction for every species of its
    list: the abundances are built exactly when all of them are keys of
    [mass_fractions], and the only exception is the [KeyError] of a
    missing one. Other keys of [mass_fractions] are not looked at. *)
Theorem make_model_abundances_outcome mass_fractions temperature :
  (is_ok (make_model_abundances float_of_token mul mass_fractions temperature) = true <->
     forall s, s ∈ species -> is_Some (dict_get s mass_fractions)) /\
  (forall e,
     make_model_abundances float_of_token mul mass_fractions temperature = Raise e <->
     e = KeyError /\ exists s, s ∈ species /\ dict_get s mass_fractions = None).
Proof.
  unfold make_model_abundances.
  assert (forall e,
            abundances_loop float_of_token mul mass_fractions temperature species [] = Raise e <->
            e = KeyError /\ exists s, s ∈ species /\ dict_get s mass_fractions = None) as Hraise.
  { intros e. rewrite abundances_loop_raise, Exists_exists. done. }
  split; [|done].
  destruct (abundances_loop _ _ _ _ _ _) as [ab|e] eqn:Hrun; simpl.
  - split; [|done]. intros _ s Hs.
    destruct (dict_get s mass_fractions) eqn:Hget; [by eexists|].
    assert (Ok ab = Raise KeyError) as Habs; [|done].
    rewrite <-Hrun. apply abundances_loop_raise. split; [done|].
    apply Exists_exists. by exists s.
  - split; [done|]. intros Hall.
    destruct (proj1 (Hraise e) eq_refl) as (_ & s & Hs & Hnone).
    destruct (Hall s Hs) as [x Hx]. congruence.
Qed.

(** X24. The abundances that [make_model] builds have the sixteen
    distinct species as keys, in the order of their first mention ([H2]
    once), and every column is the mass fraction of its species, repeated
    along the temperature profile. *)
Theorem make_model_abundances_content mass_fractions temperature abundances :
  make_model_abundances float_of_token mul mass_fractions temperature = Ok abundances ->
  keys abundances
  = ["H2"; "He"; "C2H2"; "CH4"; "CO"; "CO2"; "H2O"; "H2S"; "HCN";
     "K"; "NH3"; "Na"; "OH"; "PH3"; "TiO"; "VO"] /\
  forall s col, dict_get s abundances = Some col ->
    exists x, dict_get s mass_fractions = Some x /\
              col = mul x <$> ones_like float_of_token temperature /\
              length col = length temperature.
Proof.
  intros Hrun. split.
  - revert Hrun. unfold make_model_abundances, species. cbn [abundances_loop].
    repeat (destruct (dict_index _ mass_fractions); cbn [Py.bind]; [|done]).
    intros [= <-]. reflexivity.
  - intros s col Hcol%dict_get_Some_elem.
    pose proof (abundances_loop_columns _ _ _ _ _ Hrun (Forall_nil_2 _)) as Hall.
    destruct (proj1 (Forall_forall _ _) Hall _ Hcol) as (x & Hx & Heq). simpl in *.
    exists x. split; [done|]. split; [done|].
    rewrite Heq. unfold ones_like. by rewrite length_fmap, length_replicate.
Qed.
End ModelAbundancesRuns.

(** ** Concrete runs of the further properties *)

Section MoreRuns.
Import Samples MoreSamples.

Ltac evaluated := vm_compute; reflexivity.

Lemma read_abunds_counts_lines_with_fields_witness :
  read_abunds field_text abunds_file = Ok abunds_records /\
  length abunds_records
  = length (filter (fun fields => fields <> []) (split_line <$> readlines abunds_file)).
Proof.
  assert (read_abunds field_text abunds_file = Ok abunds_records) as H by evaluated.
  exact (conj H (read_abunds_counts_lines_with_fields field_text abunds_file
                   abunds_records H)).
Defined.

Lemma read_abunds_record_values_from_own_row_witness :
  read_abunds field_text abunds_file = Ok abunds_records /\
  genfromtxt field_text (readlines abunds_file) = Ok (Array2 5 two_rows_table) /\
  abunds_records !! 0 = Some first_record /\
  dict_get "H2" first_record = Some "0.5" /\
  exists row, two_rows_table !! 0 = Some row /\ "0.5" ∈ row.
Proof.
  assert (read_abunds field_text abunds_file = Ok abunds_records) as H1 by evaluated.
  assert (genfromtxt field_text (readlines abunds_file) = Ok (Array2 5 two_rows_table))
    as H2 by evaluated.
  assert (abunds_records !! 0 = Some first_record) as H3 by reflexivity.
  assert (dict_get "H2" first_record = Some "0.5") as H4 by evaluated.
  exact (conj H1 (conj H2 (conj H3 (conj H4
           (read_abunds_record_values_from_own_row field_text abunds_file abunds_records
              5 two_rows_table 0 first_record "H2" "0.5" H1 H2 H3 H4))))).
Defined.

Lemma n_slots_abunds_header_4 : n_slots abunds_header = 4.
Proof. evaluated. Defined.

Lemma read_abunds_fixed_keys_witness :
  read_abunds field_text abunds_file = Ok abunds_records /\
  header_of abunds_file = Ok abunds_header /\
  genfromtxt field_text (readlines abunds_file) = Ok (Array2 5 two_rows_table) /\
  ("P", 0) ∈ [("P", 0); ("T", 1); ("rho", 2)] /\
  (forall i, i < n_slots abunds_header -> Nat.even i = true ->
     species_name abunds_header i <> "P") /\
  abunds_records !! 0 = Some first_record /\
  two_rows_table !! 0 = Some first_row /\
  dict_get "P" first_record = first_row !! 0 /\ is_Some (first_row !! 0).
Proof.
  assert (read_abunds field_text abunds_file = Ok abunds_records) as H1 by evaluated.
  assert (header_of abunds_file = Ok abunds_header) as H2 by evaluated.
  assert (genfromtxt field_text (readlines abunds_file) = Ok (Array2 5 two_rows_table))
    as H3 by evaluated.
  assert (("P", 0) ∈ [("P", 0); ("T", 1); ("rho", 2)]) as H4 by left.
  assert (forall i, i < n_slots abunds_header -> Nat.even i = true ->
            species_name abunds_header i <> "P") as H5.
  { intros i. rewrite n_slots_abunds_header_4. intros Hi Hev.
    destruct i as [|[|[|[|i]]]]; [|discriminate Hev| |discriminate Hev|lia];
      vm_compute; discriminate. }
  assert (abunds_records !! 0 = Some first_record) as H6 by reflexivity.
  assert (two_rows_table !! 0 = Some first_row) as H7 by reflexivity.
  exact (conj H1 (conj H2 (conj H3 (conj H4 (conj H5 (conj H6 (conj H7
           (read_abunds_fixed_keys field_text abunds_file abunds_header abunds_records
              5 two_rows_table "P" 0 0 first_record first_row
              H1 H2 H3 H4 H5 H6 H7)))))))).
Defined.

Lemma read_abunds_last_slot_binds_witness :
  read_abunds field_text abunds_file = Ok abunds_records /\
  header_of abunds_file = Ok abunds_header /\
  genfromtxt field_text (readlines abunds_file) = Ok (Array2 5 two_rows_table) /\
  0 < n_slots abunds_header /\
  Nat.even 0 = true /\
  (forall i', 0 < i' < n_slots abunds_header -> Nat.even i' = true ->
     species_name abunds_header i' <> species_name abunds_header 0) /\
  abunds_records !! 0 = Some first_record /\
  two_rows_table !! 0 = Some first_row /\
  exists number,
    int_of_str (slice 0 3 (slot abunds_header 0)) = Ok number /\
    (- Z.of_nat 5 <= number < Z.of_nat 5)%Z /\
    dict_get (species_name abunds_header 0) first_record
      = first_row !! Z.to_nat (number mod Z.of_nat 5) /\
    is_Some (dict_get (species_name abunds_header 0) first_record).
Proof.
  assert (read_abunds field_text abunds_file = Ok abunds_records) as H1 by evaluated.
  assert (header_of abunds_file = Ok abunds_header) as H2 by evaluated.
  assert (genfromtxt field_text (readlines abunds_file) = Ok (Array2 5 two_rows_table))
    as H3 by evaluated.
  assert (0 < n_slots abunds_header) as H4 by (rewrite n_slots_abunds_header_4; lia).
  assert (Nat.even 0 = true) as H5 by reflexivity.
  assert (forall i', 0 < i' < n_slots abunds_header -> Nat.even i' = true ->
            species_name abunds_header i' <> species_name abunds_header 0) as H6.
  { intros i'. rewrite n_slots_abunds_header_4. intros Hi Hev.
    destruct i' as [|[|[|[|i']]]]; [lia|discriminate Hev| |discriminate Hev|lia].
    vm_compute. discriminate. }
  assert (abunds_records !! 0 = Some first_record) as H7 by reflexivity.
  assert (two_rows_table !! 0 = Some first_row) as H8 by reflexivity.
  exact (conj H1 (conj H2 (conj H3 (conj H4 (conj H5 (conj H6 (conj H7 (conj H8
           (read_abunds_last_slot_binds field_text abunds_file abunds_header
              abunds_records 5 two_rows_table 0 0 first_record first_row
              H1 H2 H3 H4 H5 H6 H7 H8))))))))).
Defined.

Lemma first_record_in_records : first_record ∈ abunds_records.
Proof. left. Defined.

Lemma read_abunds_fixed_keys_first_witness :
  read_abunds field_text abunds_file = Ok abunds_records /\
  header_of abunds_file = Ok abunds_header /\
  first_record ∈ abunds_records /\
  exists names,
    keys first_record = ["P"; "T"; "rho"] ++ names /\
    (forall k, k ∈ names -> k ∈ even_slot_names abunds_header) /\
    (length (chars abunds_header) < 43 -> names = []).
Proof.
  assert (read_abunds field_text abunds_file = Ok abunds_records) as H1 by evaluated.
  assert (header_of abunds_file = Ok abunds_header) as H2 by evaluated.
  exact (conj H1 (conj H2 (conj first_record_in_records
           (read_abunds_fixed_keys_first field_text abunds_file abunds_header
              abunds_records first_record H1 H2 first_record_in_records)))).
Defined.

Lemma read_abunds_keys_without_space_witness :
  read_abunds field_text abunds_file = Ok abunds_records /\
  first_record ∈ abunds_records /\
  "C2H2" ∈ keys first_record /\
  SPACE ∉ chars "C2H2".
Proof.
  assert (read_abunds field_text abunds_file = Ok abunds_records) as H1 by evaluated.
  assert ("C2H2" ∈ keys first_record) as H3
    by (apply (bool_decide_unpack _); vm_compute; exact I).
  exact (conj H1 (conj first_record_in_records (conj H3
           (read_abunds_keys_without_space field_text abunds_file abunds_records
              first_record "C2H2" H1 first_record_in_records H3)))).
Defined.

Lemma visited_slots_are_complete_witness :
  3 < n_slots abunds_header /\
  length (chars (slot abunds_header 3)) = 22 /\
  length (chars (slice 0 3 (slot abunds_header 3))) = 3 /\
  length (chars (slice_from 3 (slot abunds_header 3))) = 19 /\
  21 + 22 * n_slots abunds_header <= length (chars abunds_header)
    < 21 + 22 * (n_slots abunds_header + 1).
Proof.
  assert (3 < n_slots abunds_header) as H by (rewrite n_slots_abunds_header_4; lia).
  exact (conj H (visited_slots_are_complete abunds_header 3 H)).
Defined.


Lemma read_abunds_ragged_file_witness :
  row_1 ∈ readlines ragged_file /\
  short_row ∈ readlines ragged_file /\
  split_line row_1 <> [] /\
  split_line short_row <> [] /\
  length (split_line row_1) <> length (split_line short_row) /\
  read_abunds field_text ragged_file = Raise ValueError.
Proof.
  assert (row_1 ∈ readlines ragged_file) as H1
    by (apply (bool_decide_unpack _); vm_compute; exact I).
  assert (short_row ∈ readlines ragged_file) as H2
    by (apply (bool_decide_unpack _); vm_compute; exact I).
  assert (split_line row_1 <> []) as H3 by (vm_compute; discriminate).
  assert (split_line short_row <> []) as H4 by (vm_compute; discriminate).
  assert (length (split_line row_1) <> length (split_line short_row)) as H5
    by (vm_compute; lia).
  exact (conj H1 (conj H2 (conj H3 (conj H4 (conj H5
           (read_abunds_ragged_file field_text ragged_file row_1 short_row
              H1 H2 H3 H4 H5)))))).
Defined.

Lemma read_abunds_narrow_table_witness :
  Forall (fun line => split_line line = [] \/ length (split_line line) = 2)
    (readlines narrow_file) /\
  2 < 3 /\
  read_abunds field_text narrow_file = Raise IndexError.
Proof.
  assert (Forall (fun line => split_line line = [] \/ length (split_line line) = 2)
            (readlines narrow_file)) as H1.
  { assert (readlines narrow_file
            = [abunds_header +:+ eol; "1.0 300.0" +:+ eol; "2.0 310.0" +:+ eol]) as ->
      by evaluated.
    repeat apply Forall_cons_2; [left; evaluated|right; evaluated|right; evaluated|].
    apply Forall_nil_2. }
  assert (2 < 3) as H2 by lia.
  exact (conj H1 (conj H2 (read_abunds_narrow_table field_text narrow_file 2 H1 H2))).
Defined.

Lemma read_abunds_bad_index_field_witness :
  readlines unnumbered_file = (unnumbered_header +:+ eol) :: [row_1; row_2] /\
  split_line (unnumbered_header +:+ eol) = [] /\
  Forall (fun line => length (split_line line) = 5) [row_1; row_2] /\
  3 <= 5 /\
  2 <= length [row_1; row_2] /\
  0 < n_slots (drop_last (unnumbered_header +:+ eol)) /\
  Nat.even 0 = true /\
  int_of_str (slice 0 3 (slot (drop_last (unnumbered_header +:+ eol)) 0))
    = Raise ValueError /\
  read_abunds field_text unnumbered_file = Raise ValueError.
Proof.
  assert (readlines unnumbered_file = (unnumbered_header +:+ eol) :: [row_1; row_2]) as H1
    by evaluated.
  assert (split_line (unnumbered_header +:+ eol) = []) as H2 by evaluated.
  assert (Forall (fun line => length (split_line line) = 5) [row_1; row_2]) as H3
    by (repeat constructor).
  assert (3 <= 5) as H4 by lia.
  assert (2 <= length [row_1; row_2]) as H5 by (simpl; lia).
  assert (0 < n_slots (drop_last (unnumbered_header +:+ eol))) as H6 by (vm_compute; lia).
  assert (Nat.even 0 = true) as H7 by reflexivity.
  assert (forall i', i' < 0 -> Nat.even i' = true ->
            exists number,
              int_of_str (slice 0 3 (slot (drop_last (unnumbered_header +:+ eol)) i'))
                = Ok number /\
              (- Z.of_nat 5 <= number < Z.of_nat 5)%Z) as H8 by (intros i' Hi'; lia).
  assert (int_of_str (slice 0 3 (slot (drop_last (unnumbered_header +:+ eol)) 0))
          = Raise ValueError) as H9 by evaluated.
  exact (conj H1 (conj H2 (conj H3 (conj H4 (conj H5 (conj H6 (conj H7 (conj H9
           (proj1 (read_abunds_bad_index_field field_text unnumbered_file _ _ 5 0
                     H1 H2 H3 H4 H5 H6 H7 H8) H9))))))))).
Defined.

Example read_abunds_far_index :
  read_abunds field_text far_file = Raise IndexError.
Proof. evaluated. Qed.

Lemma get_PT_abundances_MMW_failure_log_witness :
  get_PT_abundances_MMW field_text (quiet_env header_only_file) ["1.0"] ["300.0"]
    project_world
  = (Raise IndexError,
     World "/home/user/Platmy/easy_chem"
       [Chdir "/home/user/Platmy/easy_chem";
        Savetxt "PT_struct.dat" [("1.0", "300.0")];
        System "./call_easy_chem"]) /\
  System "rm PT_struct.dat"
    ∉ [Chdir "/home/user/Platmy/easy_chem";
       Savetxt "PT_struct.dat" [("1.0", "300.0")];
       System "./call_easy_chem"].
Proof.
  assert (get_PT_abundances_MMW field_text (quiet_env header_only_file) ["1.0"] ["300.0"]
            project_world
          = (Raise IndexError,
             World "/home/user/Platmy/easy_chem"
               [Chdir "/home/user/Platmy/easy_chem";
                Savetxt "PT_struct.dat" [("1.0", "300.0")];
                System "./call_easy_chem"])) as H by evaluated.
  split; [exact H|].
  destruct (get_PT_abundances_MMW_failure_log field_text (quiet_env header_only_file)
              ["1.0"] ["300.0"] project_world _ IndexError H)
    as [Hw|[Hlog|[(data & Hlog)|(data & Hlog & _)]]];
    intros Hin; repeat (apply elem_of_cons in Hin as [Hin|Hin]; [discriminate Hin|]);
    by apply elem_of_nil in Hin.
Defined.


Lemma set_abundance_file_restore_failure_witness :
  ("std" = "std" /\ "Standard_abundances.inp" = "Standard_abundances.inp" \/
   "std" = "subsolar" /\ "Standard_abundances.inp" = "Subsolar_abundances.inp") /\
  is_absolute (cwd project_world) /\
  set_abundance_file one_way_env "std" project_world
  = (Raise OSError,
     World (solver_dir (cwd project_world))
       (log project_world
        ++ [Chdir (solver_dir (cwd project_world));
            System ("cp " +:+ "Standard_abundances.inp" +:+ " abundances.inp")])) /\
  solver_dir (cwd project_world) <> cwd project_world.
Proof.
  assert ("std" = "std" /\ "Standard_abundances.inp" = "Standard_abundances.inp" \/
          "std" = "subsolar" /\ "Standard_abundances.inp" = "Subsolar_abundances.inp")
    as H1 by (left; split; reflexivity).
  assert (is_absolute (cwd project_world)) as H2 by (eexists; reflexivity).
  exact (conj H1 (conj H2
           (set_abundance_file_restore_failure one_way_env "std" "Standard_abundances.inp"
              project_world OSError H1 H2 eq_refl eq_refl))).
Defined.

Lemma check_folders_empty_tree :
  check_folders_loop never_refused dirs empty_tree = (Ok tt, both_folders).
Proof. evaluated. Defined.

Lemma check_folders_postcondition_witness :
  check_folders never_refused empty_tree = (Ok tt, both_folders) /\
  (forall d, d ∈ dirs -> both_folders !! d = Some Directory) /\
  (forall name x, empty_tree !! name = Some x -> both_folders !! name = Some x) /\
  (forall name, name ∉ dirs -> both_folders !! name = empty_tree !! name).
Proof.
  exact (conj check_folders_empty_tree
           (check_folders_postcondition never_refused dirs empty_tree both_folders
              check_folders_empty_tree)).
Defined.

Lemma check_folders_succeeds_witness :
  (forall d, d ∈ dirs -> empty_tree !! d <> Some RegularFile) /\
  (forall t0 d, never_refused t0 d = None) /\
  exists t', check_folders_loop never_refused dirs empty_tree = (Ok tt, t').
Proof.
  assert (forall d, d ∈ dirs -> empty_tree !! d <> Some RegularFile) as H1
    by (intros d _; unfold empty_tree; by rewrite lookup_empty).
  assert (forall t0 d, never_refused t0 d = None) as H2 by reflexivity.
  exact (conj H1 (conj H2 (check_folders_succeeds never_refused dirs empty_tree H1 H2))).
Defined.

Lemma check_folders_idempotent_witness :
  check_folders_loop never_refused dirs empty_tree = (Ok tt, both_folders) /\
  check_folders_loop always_refused dirs both_folders = (Ok tt, both_folders).
Proof.
  exact (conj check_folders_empty_tree
           (check_folders_idempotent never_refused always_refused dirs empty_tree
              both_folders check_folders_empty_tree)).
Defined.

Lemma check_folders_blocked_witness :
  (forall d', d' ∈ ["gendata"] -> plots_is_a_file !! d' <> Some RegularFile) /\
  plots_is_a_file !! "plots" = Some RegularFile /\
  (forall t0 d', never_refused t0 d' = None) /\
  exists t1,
    check_folders_loop never_refused (["gendata"] ++ "plots" :: []) plots_is_a_file
      = (Raise OSError, t1) /\
    (forall d', d' ∈ ["gendata"] -> t1 !! d' = Some Directory) /\
    t1 !! "plots" = Some RegularFile /\
    (forall name, name ∉ ["gendata"] -> t1 !! name = plots_is_a_file !! name).
Proof.
  assert (forall d', d' ∈ ["gendata"] -> plots_is_a_file !! d' <> Some RegularFile) as H1.
  { intros d' Hd'%list_elem_of_singleton. subst d'. vm_compute. discriminate. }
  assert (plots_is_a_file !! "plots" = Some RegularFile) as H2 by evaluated.
  assert (forall t0 d', never_refused t0 d' = None) as H3 by reflexivity.
  exact (conj H1 (conj H2 (conj H3
           (check_folders_blocked never_refused ["gendata"] "plots" [] plots_is_a_file
              H1 H2 H3)))).
Defined.

Lemma make_model_abundances_all_fractions :
  is_ok (make_model_abundances field_text times all_fractions ["1000."; "1000."]) = true.
Proof. evaluated. Defined.

Lemma make_model_abundances_content_witness :
  exists abundances,
    make_model_abundances field_text times all_fractions ["1000."; "1000."]
      = Ok abundances /\
    keys abundances
    = ["H2"; "He"; "C2H2"; "CH4"; "CO"; "CO2"; "H2O"; "H2S"; "HCN";
       "K"; "NH3"; "Na"; "OH"; "PH3"; "TiO"; "VO"] /\
    forall s col, dict_get s abundances = Some col ->
      exists x, dict_get s all_fractions = Some x /\
                col = times x <$> ones_like field_text ["1000."; "1000."] /\
                length col = length ["1000."; "1000."].
Proof.
  destruct (make_model_abundances field_text times all_fractions ["1000."; "1000."])
    as [abundances|e] eqn:Hrun.
  - exists abundances. split; [reflexivity|].
    exact (make_model_abundances_content field_text times all_fractions
             ["1000."; "1000."] abundances Hrun).
  - exfalso. pose proof make_model_abundances_all_fractions as Hok.
    rewrite Hrun in Hok. discriminate Hok.
Defined.
End MoreRuns.
